(** * LCD_DOGM162: the driver of the EA DOGM162 character display

    A shallow embedding of [Software/drivers/LCD_DOGM162.c].  The driver talks
    to the controller through memory-mapped GPIO registers; every access to a
    register, every write of the volatile flag [l_flgLCD_IsOn] and every call
    of an external routine (delays, [vsprintf]) is kept as an [event], in
    program order; reading the flag leaves no event.  A C function becomes a
    function from the driver state to an [outcome]: the events it produced,
    the state it left, and how it ended.  [int] values are unbounded here;
    the conversions to [uint8_t] are written out. *)

From Stdlib Require Import Strings.String ZArith List Bool Lia Strings.Byte.
Import ListNotations.
Local Open Scope Z_scope.

(** Splits a conjunction into all its parts. *)
Ltac splits := repeat match goal with |- _ /\ _ => split end.

(** ** Machine integers and characters *)

(** Conversion to [uint8_t]. *)
Definition uint8 (v : Z) : Z := v mod 256.

(** The value of a [char] passed where a [uint8_t] is expected. *)
Definition char_code (c : byte) : Z := Z.of_N (Byte.to_N c).

(** Modelled from the spec: [EOS] comes from a header that is not part of the
    sources; the spec calls it the string terminator, the NUL character. *)
Definition EOS : byte := x00.

(** The character [' ']. *)
Definition SPACE : byte := x20.

(** ** Hardware configuration and controller commands (the [#define]s) *)

Definition LCD_DATA_MODE_OUT : Z := 0x44444444.
Definition LCD_DATA_MODE_IN : Z := 0x11111111.
Definition LCD_DATA_MASK : Z := Z.shiftl 0xFF 8.

Definition LCD_CMD_CLEAR_DISPLAY : Z := 0x01.
Definition LCD_CMD_ENTRY_MODE_ID : Z := 0x06.
Definition LCD_CMD_DISPLAY_ON_D : Z := 0x0C.
Definition LCD_CMD_FCT_SET_DL : Z := 0x30.
Definition LCD_CMD_FCT_SET_N : Z := 0x28.
Definition LCD_CMD_FCT_SET_IS1 : Z := 0x21.
Definition LCD_CMD_FCT_SET_IS0 : Z := 0x20.
Definition LCD_CMD_SET_DDRAM_ADDR : Z := 0x80.
Definition LCD_CMD_IS0_SET_CGRAM : Z := 0x40.
Definition LCD_CMD_IS1_BIAS_SET : Z := 0x14.
Definition LCD_CMD_IS1_IBC_BON : Z := 0x54.
Definition LCD_CMD_IS1_CONTR : Z := 0x70.
Definition LCD_CMD_IS1_FOLLOW_FON : Z := 0x68.
Definition LCD_CMD_IS1_FOLLOW_RAB2 : Z := 0x64.
Definition LCD_CMD_IS1_FOLLOW_RAB0 : Z := 0x61.

(** [static volatile int l_Contrast = 25]: the file never assigns it. *)
Definition l_Contrast : Z := 25.

(** [static const uint8_t l_CustChar[8][8]]. *)
Definition l_CustChar : list (list Z) :=
  [ [0x00; 0x00; 0x00; 0x00; 0x00; 0x00; 0x00; 0x00];
    [0x00; 0x00; 0x00; 0x00; 0x00; 0x00; 0x00; 0x00];
    [0x00; 0x00; 0x00; 0x00; 0x00; 0x00; 0x00; 0x00];
    [0x00; 0x00; 0x00; 0x00; 0x00; 0x00; 0x00; 0x00];
    [0x00; 0x00; 0x00; 0x00; 0x00; 0x00; 0x00; 0x00];
    [0x04; 0x0E; 0x15; 0x04; 0x04; 0x04; 0x04; 0x00];
    [0x04; 0x04; 0x04; 0x04; 0x15; 0x0E; 0x04; 0x00];
    [0x00; 0x04; 0x02; 0x1F; 0x02; 0x04; 0x00; 0x00] ].

(** [l_CustChar[ch][i]]; both indices stay below 8 in the driver. *)
Definition CustChar (ch i : Z) : Z :=
  nth (Z.to_nat i) (nth (Z.to_nat ch) l_CustChar []) 0.

(** ** Driver state and events *)

(** The four GPIO pins the driver drives one at a time. *)
Inductive line : Type :=
  | LCD_POWER_PIN
  | LCD_CTRL_PIN_E
  | LCD_CTRL_PIN_RW
  | LCD_CTRL_PIN_RS.

Record lcd : Type := mkLcd {
  l_flgLCD_IsOn : bool;   (* static volatile bool l_flgLCD_IsOn *)
  power_pin : bool;       (* port D, DOUT bit 8 *)
  pin_E : bool;           (* port F, DOUT bit 3 *)
  pin_RW : bool;          (* port F, DOUT bit 4 *)
  pin_RS : bool;          (* port F, DOUT bit 5 *)
  MODEH : Z;              (* port E, MODEH: direction of the data bus *)
  DOUT : Z;               (* port E, DOUT: data bus on bits 15:8 *)
  reads : nat             (* how often port E, DIN has been sampled *)
}.

Inductive event : Type :=
  | EvIsOn (b : bool)                    (* l_flgLCD_IsOn = b *)
  | EvPinModeSet (l : line) (out : bool) (* GPIO_PinModeSet (.., gpioModePushPull, out) *)
  | EvPin (l : line) (level : bool)      (* SET_LCD_POWER_PIN / SET_LCD_CTRL_PIN_x *)
  | EvDOUTCLR (mask : Z)                 (* GPIO->P[LCD_DATA_PORT].DOUTCLR = mask *)
  | EvMODEH (v : Z)                      (* SET_LCD_DATA_MODE_IN / _OUT *)
  | EvDOUT (v : Z)                       (* WRITE_LCD_DATA: DOUT = v *)
  | EvDIN (v : Z)                        (* READ_LCD_DATA: DIN was v *)
  | EvDelayTick                          (* DelayTick () *)
  | EvMsDelay (ms : Z)                   (* msDelay (ms) *)
  | EvVsprintf.                          (* vsprintf (buffer, frmt, args) *)

Definition set_line (l : line) (level : bool) (s : lcd) : lcd :=
  match l with
  | LCD_POWER_PIN =>
      mkLcd (l_flgLCD_IsOn s) level (pin_E s) (pin_RW s) (pin_RS s)
            (MODEH s) (DOUT s) (reads s)
  | LCD_CTRL_PIN_E =>
      mkLcd (l_flgLCD_IsOn s) (power_pin s) level (pin_RW s) (pin_RS s)
            (MODEH s) (DOUT s) (reads s)
  | LCD_CTRL_PIN_RW =>
      mkLcd (l_flgLCD_IsOn s) (power_pin s) (pin_E s) level (pin_RS s)
            (MODEH s) (DOUT s) (reads s)
  | LCD_CTRL_PIN_RS =>
      mkLcd (l_flgLCD_IsOn s) (power_pin s) (pin_E s) (pin_RW s) level
            (MODEH s) (DOUT s) (reads s)
  end.

(** The effect of one event on the state. *)
Definition apply (e : event) (s : lcd) : lcd :=
  match e with
  | EvIsOn b =>
      mkLcd b (power_pin s) (pin_E s) (pin_RW s) (pin_RS s)
            (MODEH s) (DOUT s) (reads s)
  | EvPinModeSet l out => set_line l out s
  | EvPin l level => set_line l level s
  | EvDOUTCLR mask =>
      mkLcd (l_flgLCD_IsOn s) (power_pin s) (pin_E s) (pin_RW s) (pin_RS s)
            (MODEH s) (Z.land (DOUT s) (Z.lnot mask)) (reads s)
  | EvMODEH v =>
      mkLcd (l_flgLCD_IsOn s) (power_pin s) (pin_E s) (pin_RW s) (pin_RS s)
            v (DOUT s) (reads s)
  | EvDOUT v =>
      mkLcd (l_flgLCD_IsOn s) (power_pin s) (pin_E s) (pin_RW s) (pin_RS s)
            (MODEH s) v (reads s)
  | EvDIN _ =>
      mkLcd (l_flgLCD_IsOn s) (power_pin s) (pin_E s) (pin_RW s) (pin_RS s)
            (MODEH s) (DOUT s) (S (reads s))
  | EvDelayTick | EvMsDelay _ | EvVsprintf => s
  end.

Definition exec (evs : list event) (s : lcd) : lcd :=
  fold_left (fun s e => apply e s) evs s.

(** ** The driver monad *)

(** How a call ends: it returns, it is stopped by a failed [EFM_ASSERT] of a
    debug build, or it leaves the bounds of an array (undefined behaviour). *)
Inductive result (A : Type) : Type :=
  | Done (a : A)
  | Halted
  | Fault.
Arguments Done {A} a.
Arguments Halted {A}.
Arguments Fault {A}.

Record outcome (A : Type) : Type := mkOut {
  evs : list event;
  st : lcd;
  val : result A
}.
Arguments mkOut {A} evs st val.
Arguments evs {A} o.
Arguments st {A} o.
Arguments val {A} o.

Definition M (A : Type) : Type := lcd -> outcome A.

Definition ret {A} (a : A) : M A := fun s => mkOut [] s (Done a).

Definition bind {A B} (m : M A) (f : A -> M B) : M B :=
  fun s =>
    let o := m s in
    match val o with
    | Done a => let o' := f a (st o) in mkOut (evs o ++ evs o') (st o') (val o')
    | Halted => mkOut (evs o) (st o) Halted
    | Fault => mkOut (evs o) (st o) Fault
    end.

Notation "x <- m ;; k" := (bind m (fun x => k))
  (at level 61, m at next level, right associativity).
Notation "m ;; k" := (bind m (fun _ => k))
  (at level 61, right associativity).

Definition emit (e : event) : M unit := fun s => mkOut [e] (apply e s) (Done tt).
Definition halt {A} : M A := fun s => mkOut [] s Halted.
Definition fault {A} : M A := fun s => mkOut [] s Fault.

(** An array access: [None] is an access outside the array. *)
Definition mem {A} (o : option A) : M A :=
  match o with Some a => ret a | None => fault end.

(** Reading the flag [l_flgLCD_IsOn]. *)
Definition IsOn : M bool := fun s => ret (l_flgLCD_IsOn s) s.

(** [for (i = lo; ...; i++) body], for a loop known to run [n] times. *)
Fixpoint for_loop (n : nat) (i : Z) (body : Z -> M unit) : M unit :=
  match n with
  | O => ret tt
  | S n' => body i ;; for_loop n' (i + 1) body
  end.

(** ** C strings in character arrays *)

(** [strlen]: the index of the first [EOS]; [None] when the array holds none,
    so that the scan would leave the array. *)
Fixpoint strlen (buffer : list byte) : option Z :=
  match buffer with
  | [] => None
  | c :: rest =>
      if Byte.eqb c EOS then Some 0
      else match strlen rest with Some n => Some (n + 1) | None => None end
  end.

(** [buffer[i] = v]. *)
Definition store (buffer : list byte) (i : Z) (v : byte) : option (list byte) :=
  if (0 <=? i) && (i <? Z.of_nat (length buffer))
  then Some (firstn (Z.to_nat i) buffer ++ v :: skipn (S (Z.to_nat i)) buffer)
  else None.

(** [while (len < width) buffer[len++] = ' ';] run for the [n] iterations
    that separate [len] from [width]. *)
Fixpoint pad_loop (n : nat) (len : Z) (buffer : list byte) : option (list byte) :=
  match n with
  | O => Some buffer
  | S n' =>
      match store buffer len SPACE with
      | Some buffer' => pad_loop n' (len + 1) buffer'
      | None => None
      end
  end.

(** ** What the controller sees *)

(** A byte latched by the controller: into its instruction register or into its
    data memory. *)
Inductive xfer : Type :=
  | Cmd (b : Z)
  | Data (b : Z).

(** The byte on the data bus, bits 15:8 of port E. *)
Definition bus (s : lcd) : Z := uint8 (Z.shiftr (DOUT s) 8).

(** The controller latches the bus on a falling edge of E while RW selects
    writing and the bus is driven by the microcontroller. *)
Definition latch (s : lcd) (e : event) : list xfer :=
  if pin_E s && negb (pin_E (apply e s)) && negb (pin_RW s)
     && (MODEH s =? LCD_DATA_MODE_OUT)
  then [if pin_RS s then Data (bus s) else Cmd (bus s)]
  else [].

(** The transfers a run of events performs, from state [s] on. *)
Fixpoint wire (s : lcd) (l : list event) : list xfer :=
  match l with
  | [] => []
  | e :: l' => latch s e ++ wire (apply e s) l'
  end.

Definition is_Data (x : xfer) : bool :=
  match x with Data _ => true | Cmd _ => false end.

(** ** A concrete display *)

(** The EA DOGM162 of the spec, 16 columns and 2 rows, with a tick rate of
    32768 counts per second, which makes the timeout 32 polls. *)
Definition DOGM162_X : Z := 16.
Definition DOGM162_Y : Z := 2.
Definition COUNTS_32768 : Z := 32768.

(** A controller that is never busy, and one that is always busy (bit 7 of
    the bus is bit 15 of the port). *)
Definition ready_DIN : nat -> Z := fun _ => 0.
Definition busy_DIN : nat -> Z := fun _ => 0x8000.

(** The driver after power-on, and before it. *)
Definition s_on : lcd := mkLcd true true false false false LCD_DATA_MODE_OUT 0 0.
Definition s_off : lcd := mkLcd false false false false false LCD_DATA_MODE_IN 0 0.

(** The string "Hello", alone and in an array of 20 characters. *)
Definition hello : list byte := ["H"; "e"; "l"; "l"; "o"]%byte.
Definition hello_rest : list byte := repeat x00 14.

(** A string of 32 characters, in an array of 33. *)
Definition long_line : list byte :=
  list_byte_of_string "This line is definitely too long".

(** A controller that is busy for three samplings and ready from then on. *)
Definition late_DIN : nat -> Z := fun n => if (n <? 3)%nat then 0x8000 else 0.

(** A formatter that copies the format string up to its terminator, for a
    call without arguments. *)
Fixpoint copy_format (frmt : list byte) (args : unit) : list byte :=
  match frmt with
  | [] => []
  | c :: rest => if Byte.eqb c x00 then [] else c :: copy_format rest args
  end.

Definition stack_zero : nat -> byte := fun _ => x00.


(** ** The driver *)

Section Driver.

(** Modelled from the spec: the display geometry, [LCD_DIMENSION_X] columns
    and [LCD_DIMENSION_Y] rows, is defined in LCD_DOGM162.h, which is not
    part of the sources (the spec: 16 columns, 2 rows). *)
Variable LCD_DIMENSION_X : Z.
Variable LCD_DIMENSION_Y : Z.

(** Modelled from the spec: [RTC_COUNTS_PER_SEC] comes from AlarmClock.h,
    the tick rate that turns the 1 ms timeout into loop iterations. *)
Variable RTC_COUNTS_PER_SEC : Z.

(** Modelled from the spec: [EFM_ASSERT] comes from em_assert.h; it is an
    assertion that halts only in debug builds.  [DEBUG_EFM] tells whether
    the build is a debug build. *)
Variable DEBUG_EFM : bool.

(** The controller's side of the bus: what the [n]-th sampling of the DIN
    register of port E returns. *)
Variable DIN : nat -> Z.

(** The variadic formatter, an external collaborator: the characters
    [vsprintf] produces for a format string and its arguments. *)
Variable va_list : Type.
Variable formatted : list byte -> va_list -> list byte.

(** The indeterminate content of the local [char buffer[40]]. *)
Variable uninit : nat -> byte.

Definition LCD_WAIT_READY_TIMEOUT : Z := Z.quot RTC_COUNTS_PER_SEC 1000.

Definition EFM_ASSERT (expr : bool) : M unit :=
  if DEBUG_EFM && negb expr then halt else ret tt.

Definition SET_LCD_POWER_PIN (level : bool) : M unit := emit (EvPin LCD_POWER_PIN level).
Definition SET_LCD_DATA_MODE_IN : M unit := emit (EvMODEH LCD_DATA_MODE_IN).
Definition SET_LCD_DATA_MODE_OUT : M unit := emit (EvMODEH LCD_DATA_MODE_OUT).
Definition READ_LCD_DATA : M Z :=
  fun s => let v := DIN (reads s) in
           mkOut [EvDIN v] (apply (EvDIN v) s) (Done (Z.shiftr v 8)).
Definition WRITE_LCD_DATA (data : Z) : M unit := emit (EvDOUT (Z.shiftl data 8)).
Definition SET_LCD_CTRL_PIN_E (level : bool) : M unit := emit (EvPin LCD_CTRL_PIN_E level).
Definition SET_LCD_CTRL_PIN_RW (level : bool) : M unit := emit (EvPin LCD_CTRL_PIN_RW level).
Definition SET_LCD_CTRL_PIN_RS (level : bool) : M unit := emit (EvPin LCD_CTRL_PIN_RS level).
Definition DelayTick : M unit := emit EvDelayTick.
Definition msDelay (ms : Z) : M unit := emit (EvMsDelay ms).
Definition GPIO_PinModeSet (l : line) (out : bool) : M unit := emit (EvPinModeSet l out).

Definition BusyRead : M Z :=
  SET_LCD_DATA_MODE_IN ;;
  SET_LCD_CTRL_PIN_RW true ;;
  SET_LCD_CTRL_PIN_RS false ;;
  SET_LCD_CTRL_PIN_E true ;;
  DelayTick ;;
  status <- READ_LCD_DATA ;;
  SET_LCD_CTRL_PIN_E false ;;
  ret (uint8 status).

(** The body of the polling loop, for the [n] iterations still to run;
    [true] is the timeout. *)
Fixpoint WaitCtrlReady_loop (n : nat) : M bool :=
  match n with
  | O => ret true
  | S n' =>
      status <- BusyRead ;;
      if Z.land status (Z.shiftl 1 7) =? 0 then ret false
      else DelayTick ;; WaitCtrlReady_loop n'
  end.

Definition WaitCtrlReady : M bool :=
  WaitCtrlReady_loop (Z.to_nat LCD_WAIT_READY_TIMEOUT).

Definition CmdWrite (cmd : Z) : M unit :=
  let cmd := uint8 cmd in
  timeout <- WaitCtrlReady ;;
  if timeout then ret tt
  else
    SET_LCD_DATA_MODE_OUT ;;
    SET_LCD_CTRL_PIN_RW false ;;
    SET_LCD_CTRL_PIN_RS false ;;
    WRITE_LCD_DATA cmd ;;
    SET_LCD_CTRL_PIN_E true ;;
    DelayTick ;;
    SET_LCD_CTRL_PIN_E false.

Definition DataWrite (data : Z) : M unit :=
  let data := uint8 data in
  timeout <- WaitCtrlReady ;;
  if timeout then ret tt
  else
    SET_LCD_DATA_MODE_OUT ;;
    SET_LCD_CTRL_PIN_RW false ;;
    SET_LCD_CTRL_PIN_RS true ;;
    WRITE_LCD_DATA data ;;
    SET_LCD_CTRL_PIN_E true ;;
    DelayTick ;;
    SET_LCD_CTRL_PIN_E false.

Definition LCD_PowerOn : M unit :=
  GPIO_PinModeSet LCD_CTRL_PIN_E false ;;
  GPIO_PinModeSet LCD_CTRL_PIN_RW false ;;
  GPIO_PinModeSet LCD_CTRL_PIN_RS false ;;
  emit (EvDOUTCLR LCD_DATA_MASK) ;;
  GPIO_PinModeSet LCD_POWER_PIN true ;;
  msDelay 100 ;;
  CmdWrite (Z.lor (Z.lor LCD_CMD_FCT_SET_DL LCD_CMD_FCT_SET_N) LCD_CMD_FCT_SET_IS1) ;;
  CmdWrite LCD_CMD_IS1_BIAS_SET ;;
  CmdWrite (Z.lor LCD_CMD_IS1_IBC_BON (Z.shiftr l_Contrast 4)) ;;
  CmdWrite (Z.lor (Z.lor LCD_CMD_IS1_FOLLOW_FON LCD_CMD_IS1_FOLLOW_RAB2)
                  LCD_CMD_IS1_FOLLOW_RAB0) ;;
  CmdWrite (Z.lor LCD_CMD_IS1_CONTR (Z.land l_Contrast 0x0F)) ;;
  CmdWrite (Z.lor (Z.lor LCD_CMD_FCT_SET_DL LCD_CMD_FCT_SET_N) LCD_CMD_FCT_SET_IS0) ;;
  for_loop 8 0 (fun ch =>
    CmdWrite (Z.lor LCD_CMD_IS0_SET_CGRAM (Z.shiftl ch 3)) ;;
    for_loop 8 0 (fun i => DataWrite (CustChar ch i))) ;;
  CmdWrite LCD_CMD_DISPLAY_ON_D ;;
  CmdWrite LCD_CMD_CLEAR_DISPLAY ;;
  CmdWrite LCD_CMD_ENTRY_MODE_ID ;;
  emit (EvIsOn true).

Definition LCD_Init : M unit := LCD_PowerOn.

Definition LCD_PowerOff : M unit :=
  emit (EvIsOn false) ;;
  SET_LCD_POWER_PIN false ;;
  SET_LCD_DATA_MODE_OUT ;;
  SET_LCD_CTRL_PIN_RW false ;;
  SET_LCD_CTRL_PIN_RS false ;;
  WRITE_LCD_DATA 0x00 ;;
  SET_LCD_CTRL_PIN_E false.

Definition LCD_Putc (c : byte) : M unit :=
  on <- IsOn ;;
  if on then DataWrite (char_code c) else ret tt.

(** [pStr] is the array from the pointer to its end; running off it while
    looking for [EOS] is a fault. *)
Fixpoint LCD_Puts (pStr : list byte) : M unit :=
  match pStr with
  | [] => fault
  | c :: rest =>
      if Byte.eqb c EOS then ret tt
      else LCD_Putc c ;; LCD_Puts rest
  end.

Definition LCD_GotoXY (x y : Z) : M unit :=
  let x := uint8 x in
  let y := uint8 y in
  on <- IsOn ;;
  if negb on then ret tt
  else
    EFM_ASSERT ((x <? LCD_DIMENSION_X) && (y <? LCD_DIMENSION_Y)) ;;
    let addr := uint8 (y * 0x40 + x) in
    CmdWrite (Z.lor LCD_CMD_SET_DDRAM_ADDR addr).

(** The result is the caller's buffer as the call leaves it. *)
Definition LCD_WriteLine (lineNum : Z) (buffer : list byte) : M (list byte) :=
  if (lineNum <? 1) || (lineNum >? 2) then
    EFM_ASSERT false ;; ret buffer
  else
    len <- mem (strlen buffer) ;;
    buffer <- (if len >? LCD_DIMENSION_X
               then mem (store buffer LCD_DIMENSION_X EOS)
               else ret buffer) ;;
    buffer <- mem (pad_loop (Z.to_nat (LCD_DIMENSION_X - len)) len buffer) ;;
    buffer <- mem (store buffer LCD_DIMENSION_X EOS) ;;
    LCD_GotoXY 0 (lineNum - 1) ;;
    LCD_Puts buffer ;;
    ret buffer.

(** [vsprintf (buffer, frmt, args)] into the local [char buffer[40]]: the
    formatted characters and the terminator; more than 40 leave the array. *)
Definition vsprintf (frmt : list byte) (args : va_list) : M (list byte) :=
  emit EvVsprintf ;;
  let text := formatted frmt args ++ [EOS] in
  if (length text <=? 40)%nat
  then ret (text ++ map uninit (seq (length text) (40 - length text)))
  else fault.

Definition LCD_vPrintf (lineNum : Z) (frmt : list byte) (args : va_list) : M unit :=
  on <- IsOn ;;
  if negb on then ret tt
  else
    n <- mem (strlen frmt) ;;
    if n >? 40 - 10 then
      EFM_ASSERT false ;; ret tt
    else
      buffer <- vsprintf frmt args ;;
      LCD_WriteLine lineNum buffer ;;
      ret tt.

Definition LCD_Printf (lineNum : Z) (frmt : list byte) (args : va_list) : M unit :=
  LCD_vPrintf lineNum frmt args.

(** ** Vocabulary of the statements *)

(** The events of one poll of the busy flag ([BusyRead]) that samples [v]. *)
Definition poll_events (v : Z) : list event :=
  [ EvMODEH LCD_DATA_MODE_IN; EvPin LCD_CTRL_PIN_RW true;
    EvPin LCD_CTRL_PIN_RS false; EvPin LCD_CTRL_PIN_E true;
    EvDelayTick; EvDIN v; EvPin LCD_CTRL_PIN_E false ].

(** The events that put the byte [b] on the bus and strobe E, with the
    register select line at [rs]. *)
Definition write_events (rs : bool) (b : Z) : list event :=
  [ EvMODEH LCD_DATA_MODE_OUT; EvPin LCD_CTRL_PIN_RW false;
    EvPin LCD_CTRL_PIN_RS rs; EvDOUT (Z.shiftl b 8);
    EvPin LCD_CTRL_PIN_E true; EvDelayTick; EvPin LCD_CTRL_PIN_E false ].

(** The state a poll leaves. *)
Definition polled (s : lcd) : lcd :=
  mkLcd (l_flgLCD_IsOn s) (power_pin s) false true false
        LCD_DATA_MODE_IN (DOUT s) (S (reads s)).

(** The state a write of byte [b] leaves, with register select at [rs]. *)
Definition written (rs : bool) (b : Z) (s : lcd) : lcd :=
  mkLcd (l_flgLCD_IsOn s) (power_pin s) false false rs
        LCD_DATA_MODE_OUT (Z.shiftl b 8) (reads s).

(** Bit 7 of the sampled status is clear. *)
Definition ready (v : Z) : bool :=
  Z.land (uint8 (Z.shiftr v 8)) (Z.shiftl 1 7) =? 0.

(** The polls a wait may spend. *)
Definition budget : nat := Z.to_nat LCD_WAIT_READY_TIMEOUT.

(** No wait that starts at the [n0]-th sampling or later times out: within
    every window of [budget] samplings the busy flag is clear once. *)
Definition responsive_from (n0 : nat) : Prop :=
  forall n, (n0 <= n)%nat ->
    exists k, (k < budget)%nat /\ ready (DIN (n + k)) = true.

(** The busy flag stays set for the next [budget] samplings. *)
Definition stuck_from (n0 : nat) : Prop :=
  forall k, (k < budget)%nat -> ready (DIN (n0 + k)) = false.

(** What a transfer may change: neither the flag nor the power pin, and an
    enable line that was low is low again. *)
Definition bus_frame (s s' : lcd) : Prop :=
  l_flgLCD_IsOn s' = l_flgLCD_IsOn s /\
  power_pin s' = power_pin s /\
  (reads s <= reads s')%nat /\
  (pin_E s = false -> pin_E s' = false).

(** The state a run leaves is the state its events produce. *)
Definition sound {A} (m : M A) : Prop :=
  forall s, st (m s) = exec (evs (m s)) s.

(** From a state after which the controller stays responsive, [m] returns
    after the transfers [w], and the controller is still responsive. *)
Definition sends (m : M unit) (w : list xfer) : Prop :=
  forall s, responsive_from (reads s) ->
    val (m s) = Done tt /\ wire s (evs (m s)) = w /\
    st (m s) = exec (evs (m s)) s /\ responsive_from (reads (st (m s))).

(** An enable line that was low, or that the run raised, is low at the end. *)
Definition strobes {A} (m : M A) : Prop :=
  forall s, pin_E s = false \/ In (EvPin LCD_CTRL_PIN_E true) (evs (m s)) ->
    pin_E (st (m s)) = false.

(** [i], [i+1], ..., [n] of them. *)
Fixpoint upto (n : nat) (i : Z) : list Z :=
  match n with
  | O => []
  | S n' => i :: upto n' (i + 1)
  end.

(** The text of a line as the display receives it: cut or filled with spaces
    to [width] characters. *)
Definition line_text (width : nat) (text : list byte) : list byte :=
  firstn width (text ++ repeat SPACE (width - length text)).

(** The upload of one glyph: its CGRAM address, then its eight rows. *)
Definition glyph_upload (slot : Z) : list xfer :=
  Cmd (Z.lor 0x40 (Z.shiftl slot 3))
  :: map Data (nth (Z.to_nat slot) l_CustChar []).

(** The commands of instruction table 1: bias, booster with contrast bits
    5:4, follower, contrast bits 3:0. *)
Definition table1_commands : list xfer :=
  [Cmd 0x14; Cmd 0x55; Cmd 0x6D; Cmd 0x79].

(** All transfers of the power-on sequence. *)
Definition init_transfers : list xfer :=
  [Cmd 0x39] ++ table1_commands ++ [Cmd 0x38]
  ++ flat_map glyph_upload [0; 1; 2; 3; 4; 5; 6; 7]
  ++ [Cmd 0x0C; Cmd 0x01; Cmd 0x06].

(** The calls that hand a list of transfers to the controller, one
    [CmdWrite] or [DataWrite] for each, in order. *)
Definition issue1 (x : xfer) : M unit :=
  match x with
  | Cmd b => CmdWrite b
  | Data b => DataWrite b
  end.

Fixpoint issue (l : list xfer) : M unit :=
  match l with
  | [] => ret tt
  | x :: l' => issue1 x ;; issue l'
  end.

(** [m] is this sequence of calls. *)
Definition issues (m : M unit) (l : list xfer) : Prop := forall s, m s = issue l s.

(** The GPIO set-up at the start of [LCD_PowerOn]. *)
Definition gpio_setup : M unit :=
  GPIO_PinModeSet LCD_CTRL_PIN_E false ;;
  GPIO_PinModeSet LCD_CTRL_PIN_RW false ;;
  GPIO_PinModeSet LCD_CTRL_PIN_RS false ;;
  emit (EvDOUTCLR LCD_DATA_MASK) ;;
  GPIO_PinModeSet LCD_POWER_PIN true ;;
  msDelay 100.

(** The events of [gpio_setup]. *)
Definition setup_events : list event :=
  [ EvPinModeSet LCD_CTRL_PIN_E false; EvPinModeSet LCD_CTRL_PIN_RW false;
    EvPinModeSet LCD_CTRL_PIN_RS false; EvDOUTCLR LCD_DATA_MASK;
    EvPinModeSet LCD_POWER_PIN true; EvMsDelay 100 ].

(** The events of a transfer: the bus direction, the three control lines,
    the bus itself and the short delay.  The flag, the power pin, the pin
    configuration, the long delay and the formatter are not among them. *)
Definition bus_event (e : event) : bool :=
  match e with
  | EvMODEH _ | EvDOUT _ | EvDIN _ | EvDelayTick => true
  | EvPin LCD_POWER_PIN _ => false
  | EvPin _ _ => true
  | _ => false
  end.

(** A transfer as it arrives: its byte converted to [uint8_t]. *)
Definition normal (x : xfer) : xfer :=
  match x with
  | Cmd b => Cmd (uint8 b)
  | Data b => Data (uint8 b)
  end.

(** [l1] is [l2] with some elements left out, the order kept. *)
Inductive subseq {A : Type} : list A -> list A -> Prop :=
  | subseq_nil : subseq [] []
  | subseq_skip (a : A) (l1 l2 : list A) : subseq l1 l2 -> subseq l1 (a :: l2)
  | subseq_take (a : A) (l1 l2 : list A) : subseq l1 l2 -> subseq (a :: l1) (a :: l2).

(** A run that changes neither the flag nor the power pin. *)
Definition framed {A} (m : M A) : Prop := forall s, bus_frame s (st (m s)).

Definition is_DOUT (e : event) : bool :=
  match e with EvDOUT _ => true | _ => false end.
Definition is_DIN (e : event) : bool :=
  match e with EvDIN _ => true | _ => false end.
Definition is_E_high (e : event) : bool :=
  match e with EvPin LCD_CTRL_PIN_E true => true | _ => false end.

(** The operations of the driver: the exposed ones and the three transfer
    primitives. *)
Inductive operation : Type :=
  | OpInit
  | OpPowerOn
  | OpPowerOff
  | OpPrintf (lineNum : Z) (frmt : list byte) (args : va_list)
  | OpvPrintf (lineNum : Z) (frmt : list byte) (args : va_list)
  | OpWriteLine (lineNum : Z) (buffer : list byte)
  | OpPuts (pStr : list byte)
  | OpPutc (c : byte)
  | OpGotoXY (x y : Z)
  | OpBusyRead
  | OpCmdWrite (cmd : Z)
  | OpDataWrite (data : Z).

Definition forget {A} (m : M A) : M unit :=
  fun s => let o := m s in
           mkOut (evs o) (st o)
                 (match val o with Done _ => Done tt | Halted => Halted | Fault => Fault end).

Definition run (op : operation) : M unit :=
  match op with
  | OpInit => LCD_Init
  | OpPowerOn => LCD_PowerOn
  | OpPowerOff => LCD_PowerOff
  | OpPrintf lineNum frmt args => LCD_Printf lineNum frmt args
  | OpvPrintf lineNum frmt args => LCD_vPrintf lineNum frmt args
  | OpWriteLine lineNum buffer => forget (LCD_WriteLine lineNum buffer)
  | OpPuts pStr => LCD_Puts pStr
  | OpPutc c => LCD_Putc c
  | OpGotoXY x y => LCD_GotoXY x y
  | OpBusyRead => forget BusyRead
  | OpCmdWrite cmd => CmdWrite cmd
  | OpDataWrite data => DataWrite data
  end.

(** ** Runs, events and states *)

Lemma exec_app (l1 l2 : list event) (s : lcd) :
  exec (l1 ++ l2) s = exec l2 (exec l1 s).
Proof. unfold exec. apply fold_left_app. Qed.

Lemma wire_app (l1 l2 : list event) (s : lcd) :
  wire s (l1 ++ l2) = wire s l1 ++ wire (exec l1 s) l2.
Proof.
  revert s. induction l1 as [|e l1 IH]; intros s; simpl.
  - reflexivity.
  - rewrite IH, app_assoc. reflexivity.
Qed.

Lemma bind_Done {A B} (m : M A) (f : A -> M B) (s : lcd) (a : A) :
  val (m s) = Done a ->
  bind m f s = mkOut (evs (m s) ++ evs (f a (st (m s))))
                     (st (f a (st (m s)))) (val (f a (st (m s)))).
Proof. intros H. unfold bind. rewrite H. reflexivity. Qed.

Lemma bus_frame_refl (s : lcd) : bus_frame s s.
Proof. unfold bus_frame. auto. Qed.

Lemma bus_frame_trans (s1 s2 s3 : lcd) :
  bus_frame s1 s2 -> bus_frame s2 s3 -> bus_frame s1 s3.
Proof.
  unfold bus_frame. intros (F1 & P1 & R1 & E1) (F2 & P2 & R2 & E2).
  repeat split; try congruence; try lia. auto.
Qed.

(** *** Every run is sound *)

Lemma sound_ret {A} (a : A) : sound (ret a).
Proof. intros s. reflexivity. Qed.

Lemma sound_emit (e : event) : sound (emit e).
Proof. intros s. reflexivity. Qed.

Lemma sound_halt {A} : sound (@halt A).
Proof. intros s. reflexivity. Qed.

Lemma sound_fault {A} : sound (@fault A).
Proof. intros s. reflexivity. Qed.

Lemma sound_mem {A} (o : option A) : sound (mem o).
Proof. destruct o; intros s; reflexivity. Qed.

Lemma sound_IsOn : sound IsOn.
Proof. intros s. reflexivity. Qed.

Lemma sound_READ_LCD_DATA : sound READ_LCD_DATA.
Proof. intros s. reflexivity. Qed.

Lemma sound_bind {A B} (m : M A) (f : A -> M B) :
  sound m -> (forall a, sound (f a)) -> sound (bind m f).
Proof.
  intros Hm Hf s. unfold bind.
  destruct (val (m s)) as [a| |]; simpl; try apply Hm.
  rewrite exec_app, <- Hm. apply Hf.
Qed.

Lemma sound_if {A} (b : bool) (m1 m2 : M A) :
  sound m1 -> sound m2 -> sound (if b then m1 else m2).
Proof. destruct b; auto. Qed.

Lemma sound_EFM_ASSERT (expr : bool) : sound (EFM_ASSERT expr).
Proof. unfold EFM_ASSERT. apply sound_if; [apply sound_halt | apply sound_ret]. Qed.

Create HintDb sound discriminated.
#[local] Hint Resolve sound_ret sound_emit sound_halt sound_fault sound_mem
  sound_IsOn sound_READ_LCD_DATA sound_bind sound_if sound_EFM_ASSERT : sound.

Lemma sound_macros (level : bool) (v : Z) (l : line) :
  sound (SET_LCD_POWER_PIN level) /\ sound SET_LCD_DATA_MODE_IN /\
  sound SET_LCD_DATA_MODE_OUT /\ sound (WRITE_LCD_DATA v) /\
  sound (SET_LCD_CTRL_PIN_E level) /\ sound (SET_LCD_CTRL_PIN_RW level) /\
  sound (SET_LCD_CTRL_PIN_RS level) /\ sound DelayTick /\ sound (msDelay v) /\
  sound (GPIO_PinModeSet l level).
Proof. repeat split; apply sound_emit. Qed.

Ltac sound_steps :=
  repeat first
    [ solve [auto with sound]
    | apply sound_macros
    | apply sound_bind; [| intros ?]
    | apply sound_if ].

Lemma sound_BusyRead : sound BusyRead.
Proof. unfold BusyRead, SET_LCD_DATA_MODE_IN, SET_LCD_CTRL_PIN_RW,
  SET_LCD_CTRL_PIN_RS, SET_LCD_CTRL_PIN_E, DelayTick. sound_steps. Qed.

Lemma sound_WaitCtrlReady_loop (n : nat) : sound (WaitCtrlReady_loop n).
Proof.
  induction n as [|n IH]; simpl.
  - apply sound_ret.
  - apply sound_bind; [apply sound_BusyRead | intros status].
    apply sound_if; [apply sound_ret |].
    apply sound_bind; [apply sound_emit | intros _; exact IH].
Qed.

Lemma sound_WaitCtrlReady : sound WaitCtrlReady.
Proof. apply sound_WaitCtrlReady_loop. Qed.

#[local] Hint Resolve sound_BusyRead sound_WaitCtrlReady : sound.

Lemma sound_CmdWrite (cmd : Z) : sound (CmdWrite cmd).
Proof. unfold CmdWrite, SET_LCD_DATA_MODE_OUT, SET_LCD_CTRL_PIN_RW,
  SET_LCD_CTRL_PIN_RS, SET_LCD_CTRL_PIN_E, WRITE_LCD_DATA, DelayTick.
  sound_steps. Qed.

Lemma sound_DataWrite (data : Z) : sound (DataWrite data).
Proof. unfold DataWrite, SET_LCD_DATA_MODE_OUT, SET_LCD_CTRL_PIN_RW,
  SET_LCD_CTRL_PIN_RS, SET_LCD_CTRL_PIN_E, WRITE_LCD_DATA, DelayTick.
  sound_steps. Qed.

#[local] Hint Resolve sound_CmdWrite sound_DataWrite : sound.

Lemma sound_for_loop (n : nat) (i : Z) (body : Z -> M unit) :
  (forall j, sound (body j)) -> sound (for_loop n i body).
Proof.
  intros Hb. revert i. induction n as [|n IH]; intros i; simpl.
  - apply sound_ret.
  - apply sound_bind; [apply Hb | intros _; apply IH].
Qed.

Lemma sound_LCD_Putc (c : byte) : sound (LCD_Putc c).
Proof. unfold LCD_Putc. sound_steps. Qed.

Lemma sound_LCD_Puts (pStr : list byte) : sound (LCD_Puts pStr).
Proof.
  induction pStr as [|c rest IH]; simpl.
  - apply sound_fault.
  - apply sound_if; [apply sound_ret |].
    apply sound_bind; [apply sound_LCD_Putc | intros _; exact IH].
Qed.

Lemma sound_LCD_GotoXY (x y : Z) : sound (LCD_GotoXY x y).
Proof. unfold LCD_GotoXY. sound_steps. Qed.

#[local] Hint Resolve sound_LCD_Putc sound_LCD_Puts sound_LCD_GotoXY : sound.

Lemma sound_LCD_WriteLine (lineNum : Z) (buffer : list byte) :
  sound (LCD_WriteLine lineNum buffer).
Proof. unfold LCD_WriteLine. sound_steps. Qed.

Lemma sound_LCD_vPrintf (lineNum : Z) (frmt : list byte) (args : va_list) :
  sound (LCD_vPrintf lineNum frmt args).
Proof.
  unfold LCD_vPrintf, vsprintf. pose proof sound_LCD_WriteLine. sound_steps.
Qed.

Lemma sound_LCD_PowerOn : sound LCD_PowerOn.
Proof.
  unfold LCD_PowerOn.
  repeat first
    [ solve [auto with sound]
    | apply sound_macros
    | apply sound_for_loop; intros ?
    | apply sound_bind; [| intros ?] ].
Qed.

Lemma sound_LCD_PowerOff : sound LCD_PowerOff.
Proof. intros s. reflexivity. Qed.

Lemma sound_forget {A} (m : M A) : sound m -> sound (forget m).
Proof. intros H s. apply H. Qed.

(** No operation changes the state behind the back of its events. *)
Lemma sound_run (op : operation) : sound (run op).
Proof.
  destruct op; cbn [run]; unfold LCD_Init, LCD_Printf;
    auto using sound_forget, sound_LCD_WriteLine, sound_LCD_vPrintf,
      sound_LCD_PowerOn, sound_LCD_PowerOff with sound.
Qed.

(** *** The busy-flag handshake *)

Lemma BusyRead_run (s : lcd) :
  BusyRead s = mkOut (poll_events (DIN (reads s))) (polled s)
                     (Done (uint8 (Z.shiftr (DIN (reads s)) 8))).
Proof. reflexivity. Qed.

Lemma WaitCtrlReady_loop_S (n : nat) (s : lcd) :
  WaitCtrlReady_loop (S n) s =
  if ready (DIN (reads s))
  then mkOut (poll_events (DIN (reads s))) (polled s) (Done false)
  else let o := WaitCtrlReady_loop n (polled s) in
       mkOut (poll_events (DIN (reads s)) ++ EvDelayTick :: evs o) (st o) (val o).
Proof.
  cbn [WaitCtrlReady_loop]. unfold bind at 1. rewrite BusyRead_run.
  cbn [val st evs]. unfold ready.
  destruct (Z.land (uint8 (Z.shiftr (DIN (reads s)) 8)) (Z.shiftl 1 7) =? 0).
  - cbn [ret evs st val]. rewrite app_nil_r. reflexivity.
  - reflexivity.
Qed.

Lemma wire_poll (s : lcd) (v : Z) (rest : list event) :
  wire s (poll_events v ++ rest) = wire (polled s) rest.
Proof.
  destruct s as [f p e rw rs m d r]. destruct e; reflexivity.
Qed.

Lemma bus_shift (b : Z) :
  0 <= b < 256 -> uint8 (Z.shiftr (Z.shiftl b 8) 8) = b.
Proof.
  intros H. rewrite Z.shiftr_shiftl_l by lia. simpl (8 - 8).
  rewrite Z.shiftl_0_r. unfold uint8. apply Z.mod_small. lia.
Qed.

Lemma uint8_range (v : Z) : 0 <= uint8 v < 256.
Proof. unfold uint8. apply Z.mod_pos_bound. lia. Qed.

Lemma uint8_small (v : Z) : 0 <= v < 256 -> uint8 v = v.
Proof. intros H. unfold uint8. apply Z.mod_small. lia. Qed.

Lemma wire_write (s : lcd) (rs : bool) (b : Z) (rest : list event) :
  pin_E s = false -> 0 <= b < 256 ->
  wire s (write_events rs b ++ rest) =
  (if rs then Data b else Cmd b) :: wire (written rs b s) rest.
Proof.
  intros HE Hb. destruct s as [f p e rw rs0 m d r]. simpl in HE. subst e.
  unfold write_events. cbn [app wire]. unfold latch.
  cbn [apply set_line pin_E pin_RW pin_RS MODEH DOUT l_flgLCD_IsOn power_pin reads
       andb negb].
  rewrite Z.eqb_refl. unfold bus. cbn [DOUT app]. rewrite bus_shift by exact Hb.
  reflexivity.
Qed.

Lemma exec_poll (s : lcd) (v : Z) : exec (poll_events v) s = polled s.
Proof. reflexivity. Qed.

Lemma exec_write (s : lcd) (rs : bool) (b : Z) :
  exec (write_events rs b) s = written rs b s.
Proof. reflexivity. Qed.

(** Whatever the controller answers, a wait returns, latches nothing, and
    leaves the enable line low once it has polled. *)
Lemma WaitCtrlReady_loop_facts (n : nat) (s : lcd) :
  (exists b, val (WaitCtrlReady_loop n s) = Done b) /\
  wire s (evs (WaitCtrlReady_loop n s)) = [] /\
  bus_frame s (st (WaitCtrlReady_loop n s)) /\
  (val (WaitCtrlReady_loop n s) = Done false ->
   pin_E (st (WaitCtrlReady_loop n s)) = false) /\
  (In (EvPin LCD_CTRL_PIN_E true) (evs (WaitCtrlReady_loop n s)) ->
   pin_E (st (WaitCtrlReady_loop n s)) = false).
Proof.
  revert s. induction n as [|n IH]; intros s.
  - cbn. splits; eauto using bus_frame_refl; try discriminate; tauto.
  - rewrite WaitCtrlReady_loop_S.
    assert (Hp : bus_frame s (polled s)).
    { unfold bus_frame, polled; cbn. repeat split; auto. }
    destruct (ready (DIN (reads s))).
    + cbn [val evs st]. splits; eauto.
      rewrite <- (app_nil_r (poll_events _)), wire_poll. reflexivity.
    + destruct (IH (polled s)) as (Hv & Hw & Hf & He & Hi).
      cbn [val evs st]. splits; auto.
      * change (EvDelayTick :: ?l) with ([EvDelayTick] ++ l).
        rewrite wire_poll. exact Hw.
      * eapply bus_frame_trans; eassumption.
      * intros _. destruct Hf as (_ & _ & _ & Hlow). apply Hlow. reflexivity.
Qed.

Lemma WaitCtrlReady_facts (s : lcd) :
  (exists b, val (WaitCtrlReady s) = Done b) /\
  wire s (evs (WaitCtrlReady s)) = [] /\
  bus_frame s (st (WaitCtrlReady s)) /\
  (val (WaitCtrlReady s) = Done false -> pin_E (st (WaitCtrlReady s)) = false) /\
  (In (EvPin LCD_CTRL_PIN_E true) (evs (WaitCtrlReady s)) ->
   pin_E (st (WaitCtrlReady s)) = false).
Proof. exact (WaitCtrlReady_loop_facts budget s). Qed.

(** A responsive controller ends the wait before the budget is spent. *)
Lemma WaitCtrlReady_loop_ready (n : nat) (s : lcd) :
  (exists k, (k < n)%nat /\ ready (DIN (reads s + k)) = true) ->
  val (WaitCtrlReady_loop n s) = Done false.
Proof.
  revert s. induction n as [|n IH]; intros s (k & Hk & Hr).
  - lia.
  - rewrite WaitCtrlReady_loop_S.
    destruct (ready (DIN (reads s))) eqn:Hnow; [reflexivity |].
    cbn [val]. apply IH. destruct k as [|k].
    + rewrite Nat.add_0_r in Hr. congruence.
    + exists k. split; [lia |]. cbn [polled reads].
      replace (S (reads s) + k)%nat with (reads s + S k)%nat by lia. exact Hr.
Qed.

(** A controller that stays busy makes the wait poll [n] times and give up. *)
Lemma WaitCtrlReady_loop_stuck (n : nat) (s : lcd) :
  (forall k, (k < n)%nat -> ready (DIN (reads s + k)) = false) ->
  val (WaitCtrlReady_loop n s) = Done true /\
  evs (WaitCtrlReady_loop n s) =
    flat_map (fun i => poll_events (DIN i) ++ [EvDelayTick]) (seq (reads s) n).
Proof.
  revert s. induction n as [|n IH]; intros s Hbusy.
  - split; reflexivity.
  - rewrite WaitCtrlReady_loop_S.
    assert (Hnow : ready (DIN (reads s)) = false).
    { rewrite <- (Nat.add_0_r (reads s)). apply Hbusy. lia. }
    rewrite Hnow.
    destruct (IH (polled s)) as (Hv & He).
    { intros k Hk. cbn [polled reads].
      replace (S (reads s) + k)%nat with (reads s + S k)%nat by lia.
      apply Hbusy. lia. }
    cbn [val evs st]. split; [exact Hv |].
    rewrite He. cbn [seq flat_map polled reads]. rewrite <- app_assoc. reflexivity.
Qed.

(** *** Command and data writes *)

Lemma CmdWrite_run (cmd : Z) (s : lcd) :
  CmdWrite cmd s =
  match val (WaitCtrlReady s) with
  | Done false =>
      mkOut (evs (WaitCtrlReady s) ++ write_events false (uint8 cmd))
            (written false (uint8 cmd) (st (WaitCtrlReady s))) (Done tt)
  | Done true => mkOut (evs (WaitCtrlReady s) ++ []) (st (WaitCtrlReady s)) (Done tt)
  | Halted => mkOut (evs (WaitCtrlReady s)) (st (WaitCtrlReady s)) Halted
  | Fault => mkOut (evs (WaitCtrlReady s)) (st (WaitCtrlReady s)) Fault
  end.
Proof.
  unfold CmdWrite. unfold bind at 1.
  destruct (val (WaitCtrlReady s)) as [[|]| |]; reflexivity.
Qed.

Lemma DataWrite_run (data : Z) (s : lcd) :
  DataWrite data s =
  match val (WaitCtrlReady s) with
  | Done false =>
      mkOut (evs (WaitCtrlReady s) ++ write_events true (uint8 data))
            (written true (uint8 data) (st (WaitCtrlReady s))) (Done tt)
  | Done true => mkOut (evs (WaitCtrlReady s) ++ []) (st (WaitCtrlReady s)) (Done tt)
  | Halted => mkOut (evs (WaitCtrlReady s)) (st (WaitCtrlReady s)) Halted
  | Fault => mkOut (evs (WaitCtrlReady s)) (st (WaitCtrlReady s)) Fault
  end.
Proof.
  unfold DataWrite. unfold bind at 1.
  destruct (val (WaitCtrlReady s)) as [[|]| |]; reflexivity.
Qed.

Lemma bus_frame_written (rs : bool) (b : Z) (s : lcd) : bus_frame s (written rs b s).
Proof. unfold bus_frame, written; cbn. auto. Qed.

(** The facts shared by both writes, for a run [o] that is a wait followed by
    the write events when the wait succeeded. *)
Ltac write_facts s :=
  pose proof (WaitCtrlReady_facts s) as (Hv & _ & Hf & _ & Hi);
  destruct Hv as (b & Hv); rewrite Hv; destruct b; cbn [val st evs];
  splits;
  [ reflexivity
  | exact Hf
  | rewrite app_nil_r; exact Hi
  | reflexivity
  | eapply bus_frame_trans; [exact Hf | apply bus_frame_written]
  | reflexivity ].

Lemma CmdWrite_facts (cmd : Z) (s : lcd) :
  val (CmdWrite cmd s) = Done tt /\
  bus_frame s (st (CmdWrite cmd s)) /\
  (In (EvPin LCD_CTRL_PIN_E true) (evs (CmdWrite cmd s)) ->
   pin_E (st (CmdWrite cmd s)) = false).
Proof. rewrite CmdWrite_run. write_facts s. Qed.

Lemma DataWrite_facts (data : Z) (s : lcd) :
  val (DataWrite data s) = Done tt /\
  bus_frame s (st (DataWrite data s)) /\
  (In (EvPin LCD_CTRL_PIN_E true) (evs (DataWrite data s)) ->
   pin_E (st (DataWrite data s)) = false).
Proof. rewrite DataWrite_run. write_facts s. Qed.

Lemma responsive_from_mono (n m : nat) :
  (n <= m)%nat -> responsive_from n -> responsive_from m.
Proof. intros Hnm H k Hk. apply H. lia. Qed.

Lemma responsive_now (s : lcd) :
  responsive_from (reads s) -> val (WaitCtrlReady s) = Done false.
Proof.
  intros H. apply WaitCtrlReady_loop_ready. apply (H (reads s)). lia.
Qed.

Ltac write_sends s H :=
  pose proof (WaitCtrlReady_facts s) as (_ & Hw & Hf & He & _);
  pose proof (responsive_now s H) as Hv;
  specialize (He Hv);
  rewrite Hv; cbn [val st evs];
  splits;
  [ reflexivity
  | rewrite wire_app, Hw, <- sound_WaitCtrlReady;
    rewrite <- (app_nil_r (write_events _ _));
    rewrite wire_write by (auto using uint8_range); reflexivity
  | rewrite exec_app, <- sound_WaitCtrlReady, exec_write; reflexivity
  | cbn [written reads];
    apply (responsive_from_mono (reads s)); [apply Hf | exact H] ].

Lemma CmdWrite_sends (cmd : Z) : sends (CmdWrite cmd) [Cmd (uint8 cmd)].
Proof. intros s H. rewrite CmdWrite_run. write_sends s H. Qed.

Lemma DataWrite_sends (data : Z) : sends (DataWrite data) [Data (uint8 data)].
Proof. intros s H. rewrite DataWrite_run. write_sends s H. Qed.

(** *** Sequences of transfers *)

Lemma sends_ret : sends (ret tt) [].
Proof. intros s H. cbn. auto. Qed.

Lemma sends_seq (m1 m2 : M unit) (w1 w2 : list xfer) :
  sends m1 w1 -> sends m2 w2 -> sends (m1 ;; m2) (w1 ++ w2).
Proof.
  intros H1 H2 s H.
  destruct (H1 s H) as (V1 & W1 & S1 & R1).
  destruct (H2 (st (m1 s)) R1) as (V2 & W2 & S2 & R2).
  rewrite (bind_Done _ _ _ _ V1). cbn [val st evs]. splits; auto.
  - rewrite wire_app, <- S1, W1, W2. reflexivity.
  - rewrite exec_app, <- S1. exact S2.
Qed.

Lemma sends_for_loop (n : nat) (i : Z) (body : Z -> M unit) (w : Z -> list xfer) :
  (forall j, sends (body j) (w j)) ->
  sends (for_loop n i body) (flat_map w (upto n i)).
Proof.
  intros Hb. revert i. induction n as [|n IH]; intros i; cbn [for_loop upto flat_map].
  - apply sends_ret.
  - apply sends_seq; [apply Hb | apply IH].
Qed.

Lemma sends_eq (m : M unit) (w w' : list xfer) : sends m w -> w = w' -> sends m w'.
Proof. intros H <-. exact H. Qed.

Lemma sends_emit (e : event) :
  (forall s, pin_E (apply e s) = pin_E s /\ reads (apply e s) = reads s) ->
  sends (emit e) [].
Proof.
  intros He s H. destruct (He s) as (HE & HR). cbn [emit val st evs]. splits; auto.
  - cbn [wire]. unfold latch. rewrite HE. destruct (pin_E s); reflexivity.
  - rewrite HR. exact H.
Qed.

(** *** The power-on sequence *)

Lemma bind_emit {B} (e : event) (f : unit -> M B) (s : lcd) :
  bind (emit e) f s =
  mkOut (e :: evs (f tt (apply e s))) (st (f tt (apply e s))) (val (f tt (apply e s))).
Proof. reflexivity. Qed.

(** While E is low an event latches nothing. *)
Lemma wire_quiet (s : lcd) (e : event) (l : list event) :
  pin_E s = false -> wire s (e :: l) = wire (apply e s) l.
Proof. intros H. cbn [wire]. unfold latch. rewrite H. reflexivity. Qed.

Lemma LCD_PowerOn_sends (s : lcd) :
  pin_E s = false -> responsive_from (reads s) ->
  val (LCD_PowerOn s) = Done tt /\ wire s (evs (LCD_PowerOn s)) = init_transfers.
Proof.
  intros HE H. unfold LCD_PowerOn.
  match goal with
  | |- context [msDelay 100 ;; ?r] =>
      assert (Hr : sends r init_transfers); [| set (rest := r) in *]
  end.
  - eapply sends_eq.
    + repeat first
        [ apply CmdWrite_sends
        | apply (sends_for_loop 8 0 _
            (fun ch => Cmd (uint8 (Z.lor LCD_CMD_IS0_SET_CGRAM (Z.shiftl ch 3)))
                       :: flat_map (fun i => [Data (uint8 (CustChar ch i))]) (upto 8 0)));
          intros ch; apply (sends_seq _ _ [_]);
          [ apply CmdWrite_sends
          | apply sends_for_loop; intros i; apply DataWrite_sends ]
        | apply sends_emit; intros s'; split; reflexivity
        | eapply sends_seq ].
    + reflexivity.
  - unfold GPIO_PinModeSet, msDelay.
    rewrite !bind_emit. cbn [val evs].
    rewrite !wire_quiet by (destruct s; cbn in HE |- *; congruence).
    destruct (Hr (exec [ EvPinModeSet LCD_CTRL_PIN_E false;
                         EvPinModeSet LCD_CTRL_PIN_RW false;
                         EvPinModeSet LCD_CTRL_PIN_RS false; EvDOUTCLR LCD_DATA_MASK;
                         EvPinModeSet LCD_POWER_PIN true; EvMsDelay 100 ] s))
      as (V & W & _ & _); [exact H |].
    split; [exact V | exact W].
Qed.

(** *** Reading the flag, assertions and array accesses *)

Lemma outcome_eta {A} (o : outcome A) : mkOut ([] ++ evs o) (st o) (val o) = o.
Proof. destruct o; reflexivity. Qed.

Lemma bind_IsOn {B} (f : bool -> M B) (s : lcd) :
  bind IsOn f s = f (l_flgLCD_IsOn s) s.
Proof. unfold bind, IsOn, ret; cbn [val st evs]. apply outcome_eta. Qed.

Lemma bind_ret {A B} (a : A) (f : A -> M B) (s : lcd) : bind (ret a) f s = f a s.
Proof. unfold bind, ret; cbn [val st evs]. apply outcome_eta. Qed.

Lemma bind_quiet {A B} (m : M A) (f : A -> M B) (s s' : lcd) (a : A) :
  m s = mkOut [] s' (Done a) -> bind m f s = f a s'.
Proof. intros H. unfold bind. rewrite H. cbn [val st evs]. apply outcome_eta. Qed.

Lemma bind_mem_Some {A B} (a : A) (f : A -> M B) (s : lcd) :
  bind (mem (Some a)) f s = f a s.
Proof. apply bind_ret. Qed.

Lemma bind_mem_None {A B} (f : A -> M B) (s : lcd) :
  bind (mem None) f s = mkOut [] s Fault.
Proof. reflexivity. Qed.

Lemma EFM_ASSERT_holds (s : lcd) : EFM_ASSERT true s = ret tt s.
Proof. unfold EFM_ASSERT. destruct DEBUG_EFM; reflexivity. Qed.

Lemma EFM_ASSERT_fails (s : lcd) :
  EFM_ASSERT false s = if DEBUG_EFM then mkOut [] s Halted else mkOut [] s (Done tt).
Proof. unfold EFM_ASSERT. destruct DEBUG_EFM; reflexivity. Qed.

(** *** Cursor positioning *)

Lemma LCD_GotoXY_off (x y : Z) (s : lcd) :
  l_flgLCD_IsOn s = false -> LCD_GotoXY x y s = mkOut [] s (Done tt).
Proof. intros H. unfold LCD_GotoXY. rewrite bind_IsOn, H. reflexivity. Qed.

Lemma LCD_GotoXY_checked (x y : Z) (s : lcd) :
  l_flgLCD_IsOn s = true ->
  (uint8 x <? LCD_DIMENSION_X) && (uint8 y <? LCD_DIMENSION_Y) = true ->
  LCD_GotoXY x y s =
  CmdWrite (Z.lor LCD_CMD_SET_DDRAM_ADDR (uint8 (uint8 y * 0x40 + uint8 x))) s.
Proof.
  intros H Hin. unfold LCD_GotoXY. rewrite bind_IsOn, H. cbn [negb].
  unfold bind at 1. rewrite Hin, EFM_ASSERT_holds. cbn [ret val st evs].
  apply outcome_eta.
Qed.

(** A release build goes on after the range check, whatever it found. *)
Lemma LCD_GotoXY_release (x y : Z) (s : lcd) :
  l_flgLCD_IsOn s = true -> DEBUG_EFM = false ->
  LCD_GotoXY x y s =
  CmdWrite (Z.lor LCD_CMD_SET_DDRAM_ADDR (uint8 (uint8 y * 0x40 + uint8 x))) s.
Proof.
  intros H Hrel. unfold LCD_GotoXY. rewrite bind_IsOn, H. cbn [negb].
  unfold bind at 1. unfold EFM_ASSERT. rewrite Hrel. cbn [andb ret val st evs].
  apply outcome_eta.
Qed.

(** A debug build stops at the range check before it touches the bus. *)
Lemma LCD_GotoXY_debug (x y : Z) (s : lcd) :
  l_flgLCD_IsOn s = true -> DEBUG_EFM = true ->
  (uint8 x <? LCD_DIMENSION_X) && (uint8 y <? LCD_DIMENSION_Y) = false ->
  LCD_GotoXY x y s = mkOut [] s Halted.
Proof.
  intros H Hdbg Hout. unfold LCD_GotoXY. rewrite bind_IsOn, H. cbn [negb].
  unfold bind at 1. unfold EFM_ASSERT. rewrite Hdbg, Hout. reflexivity.
Qed.

Lemma lor_uint8 (a b : Z) :
  0 <= a < 256 -> 0 <= b < 256 -> uint8 (Z.lor a b) = Z.lor a b.
Proof.
  intros Ha Hb. unfold uint8.
  change 256 with (2 ^ 8). rewrite <- Z.land_ones by lia.
  rewrite Z.land_lor_distr_l, !Z.land_ones by lia.
  change (2 ^ 8) with 256. rewrite !Z.mod_small by lia. reflexivity.
Qed.

(** *** Characters and strings *)

Lemma char_code_range (c : byte) : 0 <= char_code c < 256.
Proof.
  unfold char_code. pose proof (Byte.to_N_bounded c). lia.
Qed.

Lemma not_EOS (c : byte) : c <> EOS -> Byte.eqb c EOS = false.
Proof.
  intros H. destruct (Byte.eqb c EOS) eqn:E; [| reflexivity].
  apply Byte.byte_dec_bl in E. contradiction.
Qed.

Lemma LCD_Putc_off (c : byte) (s : lcd) :
  l_flgLCD_IsOn s = false -> LCD_Putc c s = mkOut [] s (Done tt).
Proof. intros H. unfold LCD_Putc. rewrite bind_IsOn, H. reflexivity. Qed.

Lemma LCD_Putc_on (c : byte) (s : lcd) :
  l_flgLCD_IsOn s = true -> LCD_Putc c s = DataWrite (char_code c) s.
Proof. intros H. unfold LCD_Putc. rewrite bind_IsOn, H. reflexivity. Qed.

Lemma LCD_Putc_facts (c : byte) (s : lcd) :
  val (LCD_Putc c s) = Done tt /\ bus_frame s (st (LCD_Putc c s)).
Proof.
  destruct (l_flgLCD_IsOn s) eqn:H.
  - rewrite LCD_Putc_on by exact H. split; apply DataWrite_facts.
  - rewrite LCD_Putc_off by exact H. split; [reflexivity | apply bus_frame_refl].
Qed.

(** A terminated string is put out to its terminator, and the call returns. *)
Lemma LCD_Puts_returns (text rest : list byte) (s : lcd) :
  Forall (fun c => c <> EOS) text ->
  val (LCD_Puts (text ++ EOS :: rest) s) = Done tt.
Proof.
  intros Ht. revert s. induction Ht as [|c text Hc Ht IH]; intros s.
  - reflexivity.
  - cbn [app LCD_Puts]. rewrite (not_EOS c Hc).
    rewrite (bind_Done _ _ _ _ (proj1 (LCD_Putc_facts c s))). cbn [val]. apply IH.
Qed.

Lemma LCD_Puts_off (pStr : list byte) (s : lcd) :
  l_flgLCD_IsOn s = false ->
  evs (LCD_Puts pStr s) = [] /\ st (LCD_Puts pStr s) = s.
Proof.
  intros H. induction pStr as [|c rest IH].
  - split; reflexivity.
  - cbn [LCD_Puts]. destruct (Byte.eqb c EOS); [split; reflexivity |].
    rewrite (bind_quiet _ _ _ _ _ (LCD_Putc_off c s H)). exact IH.
Qed.

Lemma LCD_Puts_sends (text rest : list byte) (s : lcd) :
  Forall (fun c => c <> EOS) text ->
  l_flgLCD_IsOn s = true -> responsive_from (reads s) ->
  wire s (evs (LCD_Puts (text ++ EOS :: rest) s)) =
    map (fun c => Data (char_code c)) text.
Proof.
  intros Ht. revert s. induction Ht as [|c text Hc Ht IH]; intros s Hon H.
  - reflexivity.
  - cbn [app LCD_Puts map]. rewrite (not_EOS c Hc).
    destruct (DataWrite_sends (char_code c) s H) as (V & W & S & R).
    rewrite <- (LCD_Putc_on c s Hon) in V, W, S, R.
    rewrite (bind_Done _ _ _ _ V). cbn [evs].
    rewrite wire_app, <- S, W, IH; auto.
    + rewrite (uint8_small _ (char_code_range c)). reflexivity.
    + destruct (LCD_Putc_facts c s) as (_ & F & _). congruence.
Qed.

(** *** Character arrays *)

Lemma strlen_text (text rest : list byte) :
  Forall (fun c => c <> EOS) text ->
  strlen (text ++ EOS :: rest) = Some (Z.of_nat (length text)).
Proof.
  induction 1 as [|c text Hc Ht IH].
  - reflexivity.
  - cbn [app strlen length]. rewrite (not_EOS c Hc), IH. f_equal. lia.
Qed.

Lemma strlen_split (buffer : list byte) (len : Z) :
  strlen buffer = Some len ->
  exists text rest, buffer = text ++ EOS :: rest /\
    Forall (fun c => c <> EOS) text /\ len = Z.of_nat (length text).
Proof.
  revert len. induction buffer as [|c buffer IH]; intros len H.
  - discriminate.
  - cbn [strlen] in H. destruct (Byte.eqb c EOS) eqn:E.
    + apply Byte.byte_dec_bl in E. subst c. exists [], buffer.
      inversion H. auto.
    + destruct (strlen buffer) as [n|]; [| discriminate].
      destruct (IH n eq_refl) as (text & rest & -> & Ht & ->).
      exists (c :: text), rest. inversion H. splits.
      * reflexivity.
      * constructor; [apply Byte.eqb_false; exact E | exact Ht].
      * cbn [length]. lia.
Qed.

Lemma store_in (buffer : list byte) (i : nat) (v : byte) :
  (i < length buffer)%nat ->
  store buffer (Z.of_nat i) v = Some (firstn i buffer ++ v :: skipn (S i) buffer).
Proof.
  intros H. unfold store.
  replace (0 <=? Z.of_nat i) with true by (symmetry; apply Z.leb_le; lia).
  replace (Z.of_nat i <? Z.of_nat (length buffer)) with true
    by (symmetry; apply Z.ltb_lt; lia).
  rewrite Nat2Z.id. reflexivity.
Qed.

Lemma store_out (buffer : list byte) (i : Z) (v : byte) :
  Z.of_nat (length buffer) <= i -> store buffer i v = None.
Proof.
  intros H. unfold store.
  replace (i <? Z.of_nat (length buffer)) with false
    by (symmetry; apply Z.ltb_ge; lia).
  rewrite andb_false_r. reflexivity.
Qed.

Lemma length_stored (buffer : list byte) (i : nat) (v : byte) :
  (i < length buffer)%nat ->
  length (firstn i buffer ++ v :: skipn (S i) buffer) = length buffer.
Proof.
  intros H. rewrite length_app, length_firstn. cbn [length]. rewrite length_skipn. lia.
Qed.

Lemma firstn_past {A} (l1 l2 : list A) (j : nat) :
  firstn (length l1 + j) (l1 ++ l2) = l1 ++ firstn j l2.
Proof.
  induction l1 as [|a l1 IH]; cbn; [reflexivity | rewrite IH; reflexivity].
Qed.

Lemma skipn_past {A} (l1 l2 : list A) (j : nat) :
  skipn (length l1 + j) (l1 ++ l2) = skipn j l2.
Proof. induction l1 as [|a l1 IH]; cbn; [reflexivity | exact IH]. Qed.

Lemma skipn_add {A} (l : list A) (i j : nat) :
  skipn j (skipn i l) = skipn (i + j) l.
Proof.
  revert l. induction i as [|i IH]; intros l; cbn [skipn Nat.add].
  - reflexivity.
  - destruct l as [|a l]; [destruct j; reflexivity | apply IH].
Qed.

(** The filling loop writes [n] spaces from index [k] on. *)
Lemma pad_loop_in (n k : nat) (buffer : list byte) :
  (k + n <= length buffer)%nat ->
  pad_loop n (Z.of_nat k) buffer =
    Some (firstn k buffer ++ repeat SPACE n ++ skipn (k + n) buffer).
Proof.
  revert k buffer. induction n as [|n IH]; intros k buffer H; cbn [pad_loop repeat app].
  - rewrite Nat.add_0_r, firstn_skipn. reflexivity.
  - rewrite store_in by lia.
    replace (Z.of_nat k + 1) with (Z.of_nat (S k)) by lia.
    assert (Hk : length (firstn k buffer) = k) by (rewrite length_firstn; lia).
    rewrite IH by (rewrite length_stored; lia). f_equal.
    replace (S k) with (length (firstn k buffer) + 1)%nat at 1 by lia.
    rewrite firstn_past. cbn [firstn]. rewrite <- app_assoc. cbn [app]. f_equal. f_equal.
    f_equal.
    replace (S k + n)%nat with (length (firstn k buffer) + S n)%nat by lia.
    rewrite skipn_past, skipn_cons, skipn_add. f_equal. lia.
Qed.

(** The filling loop leaves an array that ends before the last space. *)
Lemma pad_loop_out (n k : nat) (buffer : list byte) :
  (k <= length buffer < k + n)%nat -> pad_loop n (Z.of_nat k) buffer = None.
Proof.
  revert k buffer. induction n as [|n IH]; intros k buffer H; cbn [pad_loop].
  - lia.
  - destruct (Nat.eq_dec k (length buffer)) as [E|E].
    + rewrite store_out by lia. reflexivity.
    + rewrite store_in by lia.
      replace (Z.of_nat k + 1) with (Z.of_nat (S k)) by lia.
      apply IH. rewrite length_stored by lia. lia.
Qed.

Lemma length_line_text (width : nat) (text : list byte) :
  length (line_text width text) = width.
Proof.
  unfold line_text. rewrite length_firstn, length_app, repeat_length. lia.
Qed.

Lemma Forall_prefix {A} (P : A -> Prop) (n : nat) (l : list A) :
  Forall P l -> Forall P (firstn n l).
Proof.
  intros H. revert n. induction H as [|a l Ha Hl IH]; intros [|n]; cbn [firstn];
    constructor; auto.
Qed.

Lemma line_text_no_EOS (width : nat) (text : list byte) :
  Forall (fun c => c <> EOS) text ->
  Forall (fun c => c <> EOS) (line_text width text).
Proof.
  intros H. unfold line_text. apply Forall_prefix. apply Forall_app. split; [exact H |].
  apply Forall_forall. intros c Hc. apply repeat_spec in Hc. subst c. discriminate.
Qed.

Lemma restore_exact {A} (l1 l2 : list A) (v w : A) :
  firstn (length l1) (l1 ++ v :: l2) ++ w :: skipn (S (length l1)) (l1 ++ v :: l2)
  = l1 ++ w :: l2.
Proof.
  rewrite <- (Nat.add_0_r (length l1)) at 1. rewrite firstn_past. cbn [firstn].
  rewrite app_nil_r. f_equal. f_equal.
  replace (S (length l1)) with (length l1 + 1)%nat by lia.
  rewrite skipn_past. reflexivity.
Qed.

Lemma skipn_uncons {A} (n : nat) (l : list A) :
  (n < length l)%nat -> exists c, skipn n l = c :: skipn (S n) l.
Proof.
  revert l. induction n as [|n IH]; intros [|a l] H; cbn [length] in H; try lia.
  - exists a. reflexivity.
  - destruct (IH l) as (c & Hc); [lia |]. exists c. exact Hc.
Qed.

(** What the three steps of [LCD_WriteLine] on its buffer make of a string in
    an array of more than [width] characters. *)
Lemma line_buffer (text rest : list byte) (width : nat) :
  (width < length (text ++ EOS :: rest))%nat ->
  let buffer := text ++ EOS :: rest in
  let len := Z.of_nat (length text) in
  exists b1 b2,
    (if len >? Z.of_nat width then store buffer (Z.of_nat width) EOS else Some buffer)
      = Some b1 /\
    pad_loop (Z.to_nat (Z.of_nat width - len)) len b1 = Some b2 /\
    store b2 (Z.of_nat width) EOS
      = Some (line_text width text ++ EOS :: skipn (S width) buffer).
Proof.
  intros Hcap. cbv zeta.
  remember (text ++ EOS :: rest) as buffer eqn:Hbuf.
  destruct (Z.gtb_spec (Z.of_nat (length text)) (Z.of_nat width)) as [Hlong|Hshort].
  - (* the string is cut *)
    assert (Hw : (width < length text)%nat) by lia.
    assert (Hf : length (firstn width buffer) = width) by (rewrite length_firstn; lia).
    exists (firstn width buffer ++ EOS :: skipn (S width) buffer).
    exists (firstn width buffer ++ EOS :: skipn (S width) buffer).
    splits.
    + apply store_in. exact Hcap.
    + replace (Z.to_nat (Z.of_nat width - Z.of_nat (length text))) with 0%nat by lia.
      reflexivity.
    + rewrite store_in by (rewrite length_stored; lia). f_equal.
      pose proof (restore_exact (firstn width buffer) (skipn (S width) buffer) EOS EOS) as R.
      rewrite Hf in R. rewrite R. f_equal.
      unfold line_text. rewrite Hbuf, !firstn_app.
      replace (width - length text)%nat with 0%nat by lia. reflexivity.
  - (* the string is filled *)
    assert (Hw : (length text <= width)%nat) by lia.
    set (filled := text ++ repeat SPACE (width - length text)).
    assert (Hfl : length filled = width).
    { unfold filled. rewrite length_app, repeat_length. lia. }
    exists buffer. exists (filled ++ skipn width buffer).
    assert (Hft : firstn (length text) buffer = text).
    { rewrite Hbuf. rewrite <- (Nat.add_0_r (length text)), firstn_past.
      cbn [firstn]. apply app_nil_r. }
    splits.
    + reflexivity.
    + replace (Z.to_nat (Z.of_nat width - Z.of_nat (length text)))
        with (width - length text)%nat by lia.
      rewrite pad_loop_in by lia. rewrite Hft.
      replace (length text + (width - length text))%nat with width by lia.
      unfold filled. rewrite <- app_assoc. reflexivity.
    + destruct (skipn_uncons width buffer Hcap) as (c & Hc). rewrite Hc.
      rewrite store_in by (rewrite length_app, Hfl; cbn [length]; lia).
      f_equal.
      pose proof (restore_exact filled (skipn (S width) buffer) c EOS) as R.
      rewrite Hfl in R. rewrite R. f_equal.
      unfold line_text. fold filled. rewrite <- Hfl at 1. rewrite firstn_all.
      reflexivity.
Qed.

(** *** Writing a line *)

Lemma LCD_WriteLine_run (lineNum : Z) (text rest : list byte) (s : lcd) :
  lineNum = 1 \/ lineNum = 2 -> 0 <= LCD_DIMENSION_X ->
  Forall (fun c => c <> EOS) text ->
  LCD_DIMENSION_X < Z.of_nat (length (text ++ EOS :: rest)) ->
  let final := line_text (Z.to_nat LCD_DIMENSION_X) text
               ++ EOS :: skipn (S (Z.to_nat LCD_DIMENSION_X)) (text ++ EOS :: rest) in
  LCD_WriteLine lineNum (text ++ EOS :: rest) s =
  (LCD_GotoXY 0 (lineNum - 1) ;; LCD_Puts final ;; ret final) s.
Proof.
  intros Hline HX Ht Hcap final. unfold LCD_WriteLine.
  replace ((lineNum <? 1) || (lineNum >? 2)) with false
    by (destruct Hline; subst lineNum; reflexivity).
  rewrite (strlen_text text rest Ht), bind_mem_Some.
  destruct (line_buffer text rest (Z.to_nat LCD_DIMENSION_X)) as (b1 & b2 & E1 & E2 & E3);
    [lia |].
  rewrite Z2Nat.id in E1, E2, E3 by exact HX.
  match goal with
  | |- bind (if ?c then mem ?o else ret ?b) ?f s = _ =>
      replace (if c then mem o else ret b) with (mem (if c then o else Some b))
        by (destruct c; reflexivity)
  end.
  rewrite E1, bind_mem_Some, E2, bind_mem_Some, E3, bind_mem_Some. reflexivity.
Qed.

Lemma LCD_GotoXY_line (lineNum : Z) (s : lcd) :
  lineNum = 1 \/ lineNum = 2 -> 0 < LCD_DIMENSION_X -> 2 <= LCD_DIMENSION_Y ->
  l_flgLCD_IsOn s = true ->
  LCD_GotoXY 0 (lineNum - 1) s =
  CmdWrite (Z.lor LCD_CMD_SET_DDRAM_ADDR ((lineNum - 1) * 0x40)) s.
Proof.
  intros Hline HX HY Hon.
  rewrite LCD_GotoXY_checked; [| exact Hon |].
  - destruct Hline; subst lineNum; reflexivity.
  - apply andb_true_intro. split; apply Z.ltb_lt.
    + exact HX.
    + destruct Hline; subst lineNum; cbv [uint8]; cbn; lia.
Qed.

Lemma LCD_GotoXY_line_returns (lineNum : Z) (s : lcd) :
  lineNum = 1 \/ lineNum = 2 -> 0 < LCD_DIMENSION_X -> 2 <= LCD_DIMENSION_Y ->
  val (LCD_GotoXY 0 (lineNum - 1) s) = Done tt.
Proof.
  intros Hline HX HY. destruct (l_flgLCD_IsOn s) eqn:Hon.
  - rewrite LCD_GotoXY_line by assumption. apply CmdWrite_facts.
  - rewrite LCD_GotoXY_off by exact Hon. reflexivity.
Qed.

Lemma filter_Data {A} (f : A -> Z) (l : list A) :
  filter is_Data (map (fun c => Data (f c)) l) = map (fun c => Data (f c)) l.
Proof. induction l as [|a l IH]; cbn; [reflexivity | rewrite IH; reflexivity]. Qed.

(** *** Sequences of calls *)

Lemma bind_unit_eta (m : M unit) (s : lcd) : (m ;; ret tt) s = m s.
Proof.
  unfold bind. destruct (m s) as [e s' [[]| |]]; cbn; rewrite ?app_nil_r; reflexivity.
Qed.

Lemma bind_assoc {A B C} (m : M A) (f : A -> M B) (g : B -> M C) (s : lcd) :
  bind (bind m f) g s = bind m (fun a => bind (f a) g) s.
Proof.
  unfold bind. destruct (val (m s)) as [a| |]; cbn [val st evs]; try reflexivity.
  destruct (val (f a (st (m s)))) as [b| |]; cbn [val st evs];
    rewrite ?app_assoc; reflexivity.
Qed.

Lemma bind_ext {A B} (m m' : M A) (f f' : A -> M B) (s : lcd) :
  m s = m' s -> (forall a s', f a s' = f' a s') -> bind m f s = bind m' f' s.
Proof.
  intros Hm Hf. unfold bind. rewrite Hm.
  destruct (val (m' s)); try reflexivity. rewrite Hf. reflexivity.
Qed.

Lemma issue_app (l1 l2 : list xfer) (s : lcd) :
  issue (l1 ++ l2) s = (issue l1 ;; issue l2) s.
Proof.
  revert s. induction l1 as [|x l1 IH]; intros s; cbn [app issue].
  - rewrite bind_ret. reflexivity.
  - rewrite bind_assoc. apply bind_ext; [reflexivity | intros _ s'; apply IH].
Qed.

Lemma issue_app_seq (l1 l2 : list xfer) (k : M unit) (s : lcd) :
  (issue (l1 ++ l2) ;; k) s = (issue l1 ;; issue l2 ;; k) s.
Proof.
  transitivity (((issue l1 ;; issue l2) ;; k) s).
  - apply bind_ext; [apply issue_app | reflexivity].
  - apply bind_assoc.
Qed.

Lemma issues_CmdWrite (cmd : Z) : issues (CmdWrite cmd) [Cmd cmd].
Proof. intros s. cbn [issue issue1]. rewrite bind_unit_eta. reflexivity. Qed.

Lemma issues_DataWrite (data : Z) : issues (DataWrite data) [Data data].
Proof. intros s. cbn [issue issue1]. rewrite bind_unit_eta. reflexivity. Qed.

Lemma issues_seq (m1 m2 : M unit) (l1 l2 : list xfer) :
  issues m1 l1 -> issues m2 l2 -> issues (m1 ;; m2) (l1 ++ l2).
Proof.
  intros H1 H2 s. rewrite issue_app. apply bind_ext; [apply H1 | intros _; apply H2].
Qed.

Lemma issues_for_loop (n : nat) (i : Z) (body : Z -> M unit) (w : Z -> list xfer) :
  (forall j, issues (body j) (w j)) ->
  issues (for_loop n i body) (flat_map w (upto n i)).
Proof.
  intros Hb. revert i. induction n as [|n IH]; intros i; cbn [for_loop upto flat_map].
  - intros s. reflexivity.
  - apply issues_seq; [apply Hb | apply IH].
Qed.

(** The commands and data bytes of [LCD_PowerOn], as calls. *)
Lemma LCD_PowerOn_issues (s : lcd) :
  LCD_PowerOn s = (gpio_setup ;; issue init_transfers ;; emit (EvIsOn true)) s.
Proof.
  unfold LCD_PowerOn, gpio_setup.
  do 6 (cbv beta; rewrite ?bind_assoc; apply bind_ext; [reflexivity | intros _ ?s]).
  match goal with
  | |- _ = (issue ?l ;; ?e) ?s' =>
      change l with
        ([Cmd (Z.lor (Z.lor LCD_CMD_FCT_SET_DL LCD_CMD_FCT_SET_N) LCD_CMD_FCT_SET_IS1)]
         ++ [Cmd LCD_CMD_IS1_BIAS_SET]
         ++ [Cmd (Z.lor LCD_CMD_IS1_IBC_BON (Z.shiftr l_Contrast 4))]
         ++ [Cmd (Z.lor (Z.lor LCD_CMD_IS1_FOLLOW_FON LCD_CMD_IS1_FOLLOW_RAB2)
                        LCD_CMD_IS1_FOLLOW_RAB0)]
         ++ [Cmd (Z.lor LCD_CMD_IS1_CONTR (Z.land l_Contrast 0x0F))]
         ++ [Cmd (Z.lor (Z.lor LCD_CMD_FCT_SET_DL LCD_CMD_FCT_SET_N) LCD_CMD_FCT_SET_IS0)]
         ++ flat_map (fun ch => [Cmd (Z.lor LCD_CMD_IS0_SET_CGRAM (Z.shiftl ch 3))]
                                ++ flat_map (fun i => [Data (CustChar ch i)]) (upto 8 0))
                     (upto 8 0)
         ++ [Cmd LCD_CMD_DISPLAY_ON_D] ++ [Cmd LCD_CMD_CLEAR_DISPLAY]
         ++ [Cmd LCD_CMD_ENTRY_MODE_ID])
  end.
  repeat (rewrite issue_app_seq;
          apply bind_ext;
          [ first [ apply issues_CmdWrite
                  | apply issues_for_loop; intros ch; apply issues_seq;
                    [ apply issues_CmdWrite
                    | apply issues_for_loop; intros i; apply issues_DataWrite ] ]
          | intros _ ?s ]).
  apply bind_ext; [apply issues_CmdWrite | reflexivity].
Qed.

(** ** The claims *)

(** C7.  With the display on and a controller that answers within the
    timeout, [LCD_GotoXY x y] for a position on the display ([x] below the
    width, [y] below the height, on a geometry whose addresses fit the 8-bit
    address) returns after exactly one transfer, the command whose byte is
    [0x80 | (y * 0x40 + x)]. *)
Theorem LCD_GotoXY_sets_address (x y : Z) (s : lcd) :
  0 <= x < LCD_DIMENSION_X -> 0 <= y < LCD_DIMENSION_Y ->
  0x40 * (LCD_DIMENSION_Y - 1) + LCD_DIMENSION_X <= 256 ->
  l_flgLCD_IsOn s = true -> responsive_from (reads s) ->
  val (LCD_GotoXY x y s) = Done tt /\
  wire s (evs (LCD_GotoXY x y s)) = [Cmd (Z.lor LCD_CMD_SET_DDRAM_ADDR (y * 0x40 + x))].
Proof.
  intros Hx Hy Hgeo Hon H.
  assert (Hx8 : uint8 x = x) by (apply uint8_small; lia).
  assert (Hy8 : uint8 y = y) by (apply uint8_small; lia).
  rewrite LCD_GotoXY_checked.
  - rewrite Hx8, Hy8.
    destruct (CmdWrite_sends
                (Z.lor LCD_CMD_SET_DDRAM_ADDR (uint8 (y * 0x40 + x))) s H)
      as (V & W & _ & _).
    split; [exact V |]. rewrite W.
    rewrite (uint8_small (y * 0x40 + x)) by lia.
    rewrite lor_uint8; [reflexivity | unfold LCD_CMD_SET_DDRAM_ADDR; lia | lia].
  - exact Hon.
  - rewrite Hx8, Hy8. apply andb_true_intro. split; apply Z.ltb_lt; lia.
Qed.

(** C2.  With the display on and a controller that answers within the
    timeout, [LCD_WriteLine] for line 1 or 2 and a string in an array of more
    than width characters sets the cursor to the start of the line and then
    transfers exactly width data bytes: the string cut to its first width
    characters, or filled on the right with spaces up to the width. *)
Theorem LCD_WriteLine_transfers (lineNum : Z) (text rest : list byte) (s : lcd) :
  lineNum = 1 \/ lineNum = 2 ->
  0 < LCD_DIMENSION_X -> 2 <= LCD_DIMENSION_Y ->
  Forall (fun c => c <> EOS) text ->
  LCD_DIMENSION_X < Z.of_nat (length (text ++ EOS :: rest)) ->
  l_flgLCD_IsOn s = true -> responsive_from (reads s) ->
  let w := wire s (evs (LCD_WriteLine lineNum (text ++ EOS :: rest) s)) in
  w = Cmd (Z.lor LCD_CMD_SET_DDRAM_ADDR ((lineNum - 1) * 0x40))
      :: map (fun c => Data (char_code c)) (line_text (Z.to_nat LCD_DIMENSION_X) text) /\
  length (filter is_Data w) = Z.to_nat LCD_DIMENSION_X.
Proof.
  intros Hline HX HY Ht Hcap Hon H w.
  assert (Hw : w = Cmd (Z.lor LCD_CMD_SET_DDRAM_ADDR ((lineNum - 1) * 0x40))
      :: map (fun c => Data (char_code c)) (line_text (Z.to_nat LCD_DIMENSION_X) text)).
  { subst w. rewrite LCD_WriteLine_run by (auto; lia). cbv zeta.
    pose proof (LCD_GotoXY_line lineNum s Hline HX HY Hon) as Hgo.
    destruct (CmdWrite_sends
                (Z.lor LCD_CMD_SET_DDRAM_ADDR ((lineNum - 1) * 0x40)) s H)
      as (V & W & S & R).
    destruct (CmdWrite_facts
                (Z.lor LCD_CMD_SET_DDRAM_ADDR ((lineNum - 1) * 0x40)) s)
      as (_ & (F & _) & _).
    rewrite <- Hgo in V, W, S, R, F.
    rewrite (bind_Done _ _ _ _ V). cbn [evs].
    rewrite wire_app, <- S, W.
    set (s1 := st (LCD_GotoXY 0 (lineNum - 1) s)) in *.
    assert (Hno : Forall (fun c => c <> EOS) (line_text (Z.to_nat LCD_DIMENSION_X) text))
      by (apply line_text_no_EOS; exact Ht).
    rewrite (bind_Done _ _ _ _ (LCD_Puts_returns _ _ s1 Hno)).
    cbn [evs ret]. rewrite app_nil_r.
    rewrite LCD_Puts_sends by (auto; congruence).
    rewrite lor_uint8.
    - reflexivity.
    - unfold LCD_CMD_SET_DDRAM_ADDR; lia.
    - destruct Hline; subst lineNum; lia. }
  split; [exact Hw |].
  rewrite Hw. cbn [filter is_Data]. rewrite filter_Data, length_map.
  apply length_line_text.
Qed.

(** C8.  [LCD_WriteLine] for line 1 or 2 rewrites the caller's array whether
    the display is on or off: when the array holds more than width
    characters the call returns it with the cut or filled text in its first
    width characters and the terminator at index width, the rest untouched;
    an array of width characters or fewer is left through its end before
    anything is sent, even when the string in it is shorter than width. *)
Theorem LCD_WriteLine_buffer (lineNum : Z) (text rest : list byte) (s : lcd) :
  lineNum = 1 \/ lineNum = 2 ->
  0 < LCD_DIMENSION_X -> 2 <= LCD_DIMENSION_Y ->
  Forall (fun c => c <> EOS) text ->
  let buffer := text ++ EOS :: rest in
  let width := Z.to_nat LCD_DIMENSION_X in
  (LCD_DIMENSION_X < Z.of_nat (length buffer) ->
   exists buffer',
     val (LCD_WriteLine lineNum buffer s) = Done buffer' /\
     firstn width buffer' = line_text width text /\
     nth_error buffer' width = Some EOS /\
     skipn (S width) buffer' = skipn (S width) buffer /\
     length buffer' = length buffer) /\
  (Z.of_nat (length buffer) <= LCD_DIMENSION_X ->
   val (LCD_WriteLine lineNum buffer s) = Fault /\
   evs (LCD_WriteLine lineNum buffer s) = []).
Proof.
  intros Hline HX HY Ht buffer width.
  assert (Hb : buffer = text ++ EOS :: rest) by reflexivity.
  assert (Hwd : width = Z.to_nat LCD_DIMENSION_X) by reflexivity.
  clearbody buffer width. split.
  - intros Hcap.
    exists (line_text width text ++ EOS :: skipn (S width) buffer).
    pose proof (length_line_text width text) as Hlen.
    splits.
    + subst buffer width. rewrite LCD_WriteLine_run by (auto; lia). cbv zeta.
      rewrite (bind_Done _ _ _ _ (LCD_GotoXY_line_returns lineNum s Hline HX HY)).
      cbn [val].
      rewrite (bind_Done _ _ _ _
                 (LCD_Puts_returns _ _ _ (line_text_no_EOS _ _ Ht))).
      reflexivity.
    + rewrite <- Hlen at 1. rewrite <- (Nat.add_0_r (length _)), firstn_past.
      cbn [firstn]. apply app_nil_r.
    + rewrite nth_error_app2 by lia. rewrite Hlen, Nat.sub_diag. reflexivity.
    + replace (S width) with (length (line_text width text) + 1)%nat at 1 by lia.
      rewrite skipn_past. reflexivity.
    + rewrite length_app, Hlen. cbn [length]. rewrite length_skipn. lia.
  - intros Hcap. unfold LCD_WriteLine.
    replace ((lineNum <? 1) || (lineNum >? 2)) with false
      by (destruct Hline; subst lineNum; reflexivity).
    assert (Hs : strlen buffer = Some (Z.of_nat (length text)))
      by (rewrite Hb; apply strlen_text; exact Ht).
    assert (Hlt : (length text < length buffer)%nat).
    { rewrite Hb, length_app. cbn [length]. lia. }
    rewrite Hs, !bind_mem_Some.
    replace (Z.of_nat (length text) >? LCD_DIMENSION_X) with false
      by (symmetry; rewrite Z.gtb_ltb; apply Z.ltb_ge; lia).
    rewrite !bind_ret.
    replace (Z.to_nat (LCD_DIMENSION_X - Z.of_nat (length text)))
      with (width - length text)%nat by lia.
    destruct (Nat.eq_dec (length buffer) width) as [E|E].
    + rewrite pad_loop_in by lia. rewrite bind_mem_Some.
      rewrite store_out; [split; reflexivity |].
      rewrite !length_app, length_firstn, repeat_length, length_skipn. lia.
    + rewrite pad_loop_out by lia. split; reflexivity.
Qed.

Lemma polls_counted (l : list nat) :
  let polls := flat_map (fun i => poll_events (DIN i) ++ [EvDelayTick]) l in
  length (filter is_DOUT polls) = 0%nat /\
  length (filter is_E_high polls) = length l /\
  length (filter is_DIN polls) = length l.
Proof.
  induction l as [|i l (IH1 & IH2 & IH3)]; cbn [flat_map].
  - auto.
  - rewrite !filter_app, !length_app, IH1, IH2, IH3. auto.
Qed.

(** C3.  When the busy flag stays set for all [LCD_WAIT_READY_TIMEOUT] polls
    of the wait, [CmdWrite] and [DataWrite] return, without a result that
    could report it, after the events of these polls and nothing else: the
    controller latches no byte, the bus is never written, and the enable line
    is pulsed once for each of the polls and not again. *)
Theorem write_skipped_on_timeout (b : Z) (s : lcd) :
  stuck_from (reads s) ->
  let polls :=
    flat_map (fun i => poll_events (DIN i) ++ [EvDelayTick]) (seq (reads s) budget) in
  (val (CmdWrite b s) = Done tt /\ evs (CmdWrite b s) = polls) /\
  (val (DataWrite b s) = Done tt /\ evs (DataWrite b s) = polls) /\
  wire s polls = [] /\
  length (filter is_DOUT polls) = 0%nat /\
  length (filter is_E_high polls) = budget /\
  length (filter is_DIN polls) = budget.
Proof.
  intros Hstuck polls.
  destruct (WaitCtrlReady_loop_stuck budget s Hstuck) as (Hv & He).
  change (WaitCtrlReady_loop budget) with WaitCtrlReady in Hv, He.
  fold polls in He.
  destruct (WaitCtrlReady_facts s) as (_ & Hw & _).
  destruct (polls_counted (seq (reads s) budget)) as (C1 & C2 & C3).
  fold polls in C1, C2, C3. rewrite length_seq in C2, C3.
  rewrite CmdWrite_run, DataWrite_run, Hv. cbn [val evs].
  rewrite app_nil_r, He. rewrite He in Hw. splits; auto.
Qed.

Lemma LCD_vPrintf_off (lineNum : Z) (frmt : list byte) (args : va_list) (s : lcd) :
  l_flgLCD_IsOn s = false -> LCD_vPrintf lineNum frmt args s = mkOut [] s (Done tt).
Proof. intros H. unfold LCD_vPrintf. rewrite bind_IsOn, H. reflexivity. Qed.

(** C4.  While the flag [l_flgLCD_IsOn] is false, [LCD_Putc], [LCD_Puts],
    [LCD_GotoXY], [LCD_vPrintf] and [LCD_Printf] produce no event at all, so
    no bus transfer, and leave every register and control line as it was. *)
Theorem off_is_silent (s : lcd) :
  l_flgLCD_IsOn s = false ->
  (forall c, LCD_Putc c s = mkOut [] s (Done tt)) /\
  (forall pStr, evs (LCD_Puts pStr s) = [] /\ st (LCD_Puts pStr s) = s) /\
  (forall x y, LCD_GotoXY x y s = mkOut [] s (Done tt)) /\
  (forall lineNum frmt args, LCD_vPrintf lineNum frmt args s = mkOut [] s (Done tt)) /\
  (forall lineNum frmt args, LCD_Printf lineNum frmt args s = mkOut [] s (Done tt)).
Proof.
  intros H. splits; intros.
  - apply LCD_Putc_off, H.
  - apply LCD_Puts_off, H.
  - apply LCD_GotoXY_off, H.
  - apply LCD_vPrintf_off, H.
  - apply LCD_vPrintf_off, H.
Qed.

(** C6.  [LCD_PowerOff] first clears the flag [l_flgLCD_IsOn]; only then it
    takes the power enable pin low, and after that it switches the bus to
    output, takes RW and RS low, writes 0 to the bus and takes E low, in this
    order; it returns with all these lines low. *)
Theorem LCD_PowerOff_order (s : lcd) :
  LCD_PowerOff s =
  mkOut [ EvIsOn false;
          EvPin LCD_POWER_PIN false;
          EvMODEH LCD_DATA_MODE_OUT;
          EvPin LCD_CTRL_PIN_RW false;
          EvPin LCD_CTRL_PIN_RS false;
          EvDOUT 0;
          EvPin LCD_CTRL_PIN_E false ]
        (mkLcd false false false false false LCD_DATA_MODE_OUT 0 (reads s))
        (Done tt).
Proof. reflexivity. Qed.

(** C10.  For a terminated format string of length [n], [LCD_vPrintf] ends
    without an event, so without a call of [vsprintf] and without a
    transfer, exactly when the display is off or [n] exceeds 30; it has then
    changed nothing, and it returns unless it is a debug build that stops at
    the assertion on the length.  In every other case it calls [vsprintf]
    first, whatever the length of the text that [vsprintf] produces. *)
Theorem LCD_vPrintf_guard (lineNum : Z) (frmt : list byte) (args : va_list)
    (n : Z) (s : lcd) :
  strlen frmt = Some n ->
  let o := LCD_vPrintf lineNum frmt args s in
  (evs o = [] <-> l_flgLCD_IsOn s = false \/ n > 30) /\
  (l_flgLCD_IsOn s = false \/ n > 30 ->
   st o = s /\ val o = if l_flgLCD_IsOn s && DEBUG_EFM then Halted else Done tt) /\
  (l_flgLCD_IsOn s = true -> n <= 30 -> exists rest, evs o = EvVsprintf :: rest).
Proof.
  intros Hn o. subst o. unfold LCD_vPrintf. rewrite bind_IsOn.
  destruct (l_flgLCD_IsOn s) eqn:Hon; cbn [negb andb].
  - rewrite Hn, bind_mem_Some. change (40 - 10) with 30.
    destruct (Z.gtb_spec n 30) as [Hlong|Hshort].
    + unfold bind. rewrite EFM_ASSERT_fails.
      destruct DEBUG_EFM; cbn; splits; auto; try (split; intros; auto; right; lia);
        intros; lia.
    + assert (Hcall : exists rest,
                evs ((buffer <- vsprintf frmt args ;;
                      LCD_WriteLine lineNum buffer ;; ret tt) s) = EvVsprintf :: rest).
      { unfold vsprintf.
        destruct (length (formatted frmt args ++ [EOS]) <=? 40)%nat;
          unfold bind; cbn; eauto. }
      destruct Hcall as (rest & Hc). rewrite Hc. splits.
      * split; [discriminate | intros [?|?]; [discriminate | lia]].
      * intros [?|?]; [discriminate | lia].
      * eauto.
  - cbn. splits; auto; try tauto. intros; discriminate.
Qed.

(** *** The enable line *)

Lemma strobes_ret {A} (a : A) : strobes (ret a).
Proof. intros s [H|[]]. exact H. Qed.

Lemma strobes_halt {A} : strobes (@halt A).
Proof. intros s [H|[]]. exact H. Qed.

Lemma strobes_fault {A} : strobes (@fault A).
Proof. intros s [H|[]]. exact H. Qed.

Lemma strobes_mem {A} (o : option A) : strobes (mem o).
Proof. destruct o; [apply strobes_ret | apply strobes_fault]. Qed.

Lemma strobes_IsOn : strobes IsOn.
Proof. intros s [H|[]]. exact H. Qed.

Lemma strobes_if {A} (b : bool) (m1 m2 : M A) :
  strobes m1 -> strobes m2 -> strobes (if b then m1 else m2).
Proof. destruct b; auto. Qed.

Lemma strobes_EFM_ASSERT (expr : bool) : strobes (EFM_ASSERT expr).
Proof. unfold EFM_ASSERT. apply strobes_if; [apply strobes_halt | apply strobes_ret]. Qed.

Lemma strobes_bind {A B} (m : M A) (f : A -> M B) :
  strobes m -> (forall a, strobes (f a)) -> strobes (bind m f).
Proof.
  intros Hm Hf s H. unfold bind in *.
  destruct (val (m s)) as [a| |]; cbn [evs st] in *; try (apply Hm; exact H).
  apply Hf. destruct H as [H|H].
  - left. apply Hm. left. exact H.
  - apply in_app_or in H. destruct H as [H|H]; [left; apply Hm; right; exact H | right; exact H].
Qed.

(** An event that leaves E alone. *)
Lemma strobes_emit_keep (e : event) :
  (forall s, pin_E (apply e s) = pin_E s) -> e <> EvPin LCD_CTRL_PIN_E true ->
  strobes (emit e).
Proof.
  intros Hk Hne s [H|[H|[]]]; cbn [emit st].
  - rewrite Hk. exact H.
  - congruence.
Qed.

(** An event that takes E low. *)
Lemma strobes_emit_low (e : event) :
  (forall s, pin_E (apply e s) = false) -> strobes (emit e).
Proof. intros Hl s _. apply Hl. Qed.

Lemma strobes_forget {A} (m : M A) : strobes m -> strobes (forget m).
Proof. intros H s. apply H. Qed.

Lemma strobes_BusyRead : strobes BusyRead.
Proof. intros s _. rewrite BusyRead_run. reflexivity. Qed.

Lemma strobes_CmdWrite (cmd : Z) : strobes (CmdWrite cmd).
Proof.
  intros s [H|H]; destruct (CmdWrite_facts cmd s) as (_ & (_ & _ & _ & F) & I); auto.
Qed.

Lemma strobes_DataWrite (data : Z) : strobes (DataWrite data).
Proof.
  intros s [H|H]; destruct (DataWrite_facts data s) as (_ & (_ & _ & _ & F) & I); auto.
Qed.

Lemma strobes_for_loop (n : nat) (i : Z) (body : Z -> M unit) :
  (forall j, strobes (body j)) -> strobes (for_loop n i body).
Proof.
  intros Hb. revert i. induction n as [|n IH]; intros i; cbn [for_loop].
  - apply strobes_ret.
  - apply strobes_bind; [apply Hb | intros _; apply IH].
Qed.

Create HintDb strobes discriminated.
#[local] Hint Resolve strobes_ret strobes_halt strobes_fault strobes_mem strobes_IsOn
  strobes_EFM_ASSERT strobes_BusyRead strobes_CmdWrite strobes_DataWrite
  strobes_forget : strobes.

Ltac strobes_steps :=
  repeat first
    [ solve [auto with strobes]
    | apply strobes_for_loop; intros ?
    | apply strobes_bind; [| intros ?]
    | apply strobes_if
    | apply strobes_emit_low; intros ?; reflexivity
    | apply strobes_emit_keep; [intros ?; reflexivity | discriminate] ].

Lemma strobes_LCD_Putc (c : byte) : strobes (LCD_Putc c).
Proof. unfold LCD_Putc. strobes_steps. Qed.

Lemma strobes_LCD_Puts (pStr : list byte) : strobes (LCD_Puts pStr).
Proof.
  induction pStr as [|c rest IH]; cbn [LCD_Puts].
  - apply strobes_fault.
  - apply strobes_if; [apply strobes_ret |].
    apply strobes_bind; [apply strobes_LCD_Putc | intros _; exact IH].
Qed.

Lemma strobes_LCD_GotoXY (x y : Z) : strobes (LCD_GotoXY x y).
Proof. unfold LCD_GotoXY. strobes_steps. Qed.

#[local] Hint Resolve strobes_LCD_Putc strobes_LCD_Puts strobes_LCD_GotoXY : strobes.

Lemma strobes_LCD_WriteLine (lineNum : Z) (buffer : list byte) :
  strobes (LCD_WriteLine lineNum buffer).
Proof. unfold LCD_WriteLine. strobes_steps. Qed.

#[local] Hint Resolve strobes_LCD_WriteLine : strobes.

Lemma strobes_LCD_vPrintf (lineNum : Z) (frmt : list byte) (args : va_list) :
  strobes (LCD_vPrintf lineNum frmt args).
Proof.
  unfold LCD_vPrintf, vsprintf. strobes_steps.
Qed.

Lemma strobes_LCD_PowerOn : strobes LCD_PowerOn.
Proof.
  unfold LCD_PowerOn, GPIO_PinModeSet, msDelay. strobes_steps.
Qed.

Lemma strobes_LCD_PowerOff : strobes LCD_PowerOff.
Proof. intros s _. reflexivity. Qed.

(** Power-on takes E low before anything else. *)
Lemma LCD_PowerOn_low (s : lcd) : pin_E (st (LCD_PowerOn s)) = false.
Proof.
  unfold LCD_PowerOn.
  match goal with
  | |- pin_E (st ((GPIO_PinModeSet LCD_CTRL_PIN_E false ;; ?r) s)) = false =>
      change (pin_E (st (r (apply (EvPinModeSet LCD_CTRL_PIN_E false) s))) = false);
      assert (Hr : strobes r)
  end.
  - unfold GPIO_PinModeSet, msDelay. strobes_steps.
  - apply Hr. left. reflexivity.
Qed.

(** C9.  At the end of every operation of the driver, the exposed ones and
    the three transfer primitives, the enable line E is low whenever it was
    low at the start or the operation raised it; power-on and power-off
    leave it low in any case. *)
Theorem enable_line_idles_low (op : operation) (s : lcd) :
  pin_E s = false \/ In (EvPin LCD_CTRL_PIN_E true) (evs (run op s))
  \/ op = OpInit \/ op = OpPowerOn \/ op = OpPowerOff ->
  pin_E (st (run op s)) = false.
Proof.
  intros [H|[H|[H|[H|H]]]].
  3, 4: subst op; apply LCD_PowerOn_low.
  3: subst op; reflexivity.
  - assert (Hs : strobes (run op)).
    { destruct op; cbn [run]; unfold LCD_Init, LCD_Printf;
        auto using strobes_LCD_PowerOn, strobes_LCD_PowerOff,
          strobes_LCD_vPrintf with strobes. }
    apply Hs. left. exact H.
  - assert (Hs : strobes (run op)).
    { destruct op; cbn [run]; unfold LCD_Init, LCD_Printf;
        auto using strobes_LCD_PowerOn, strobes_LCD_PowerOff,
          strobes_LCD_vPrintf with strobes. }
    apply Hs. right. exact H.
Qed.

(** C5.  [LCD_PowerOn] is the GPIO set-up followed by the calls
    [init_transfers] and the setting of the flag: the function set that
    selects instruction table 1, the four commands of that table (bias,
    booster with contrast bits 5:4, follower, contrast bits 3:0), the function
    set that selects table 0, and only then the eight glyph uploads for the
    slots 0 to 7 in this order, each the CGRAM address command
    [0x40 | (slot << 3)] followed by the eight rows of [l_CustChar[slot]] as
    data bytes, and at last display on, clear display and entry mode.
    Started with the enable line low and a controller that answers within
    the timeout, it returns and the controller has latched exactly these
    bytes in this order. *)
Theorem LCD_PowerOn_sequence (s : lcd) :
  LCD_PowerOn s = (gpio_setup ;; issue init_transfers ;; emit (EvIsOn true)) s /\
  init_transfers =
    [Cmd 0x39] ++ table1_commands ++ [Cmd 0x38]
    ++ flat_map glyph_upload [0; 1; 2; 3; 4; 5; 6; 7]
    ++ [Cmd 0x0C; Cmd 0x01; Cmd 0x06] /\
  Forall (fun slot =>
            exists rows, nth_error l_CustChar (Z.to_nat slot) = Some rows /\
              length rows = 8%nat /\
              glyph_upload slot = Cmd (Z.lor 0x40 (Z.shiftl slot 3)) :: map Data rows)
         [0; 1; 2; 3; 4; 5; 6; 7] /\
  (pin_E s = false -> responsive_from (reads s) ->
   val (LCD_PowerOn s) = Done tt /\
   wire s (evs (LCD_PowerOn s)) = init_transfers).
Proof.
  splits.
  - apply LCD_PowerOn_issues.
  - reflexivity.
  - repeat constructor; eexists; splits; reflexivity.
  - apply LCD_PowerOn_sends.
Qed.

(** ** Further properties of the driver *)

(** *** The bounded wait *)

Lemma WaitCtrlReady_loop_first (n k : nat) (s : lcd) :
  (k < n)%nat -> ready (DIN (reads s + k)) = true ->
  (forall j, (j < k)%nat -> ready (DIN (reads s + j)) = false) ->
  val (WaitCtrlReady_loop n s) = Done false /\
  evs (WaitCtrlReady_loop n s) =
    flat_map (fun i => poll_events (DIN i) ++ [EvDelayTick]) (seq (reads s) k)
    ++ poll_events (DIN (reads s + k)) /\
  reads (st (WaitCtrlReady_loop n s)) = (reads s + k + 1)%nat.
Proof.
  revert k s. induction n as [|n IH]; intros k s Hk Hr Hb; [lia |].
  rewrite WaitCtrlReady_loop_S. destruct k as [|k].
  - rewrite Nat.add_0_r in Hr. rewrite Hr. cbn [val evs st seq flat_map app polled reads].
    rewrite Nat.add_0_r. splits; auto. lia.
  - assert (Hnow : ready (DIN (reads s)) = false).
    { rewrite <- (Nat.add_0_r (reads s)). apply Hb. lia. }
    rewrite Hnow.
    destruct (IH k (polled s)) as (V & E & R).
    + lia.
    + cbn [polled reads]. replace (S (reads s) + k)%nat with (reads s + S k)%nat by lia.
      exact Hr.
    + intros j Hj. cbn [polled reads].
      replace (S (reads s) + j)%nat with (reads s + S j)%nat by lia. apply Hb. lia.
    + cbn [val evs st]. splits.
      * exact V.
      * rewrite E. cbn [seq flat_map polled reads]. rewrite <- !app_assoc. cbn [app].
        replace (S (reads s) + k)%nat with (reads s + S k)%nat by lia. reflexivity.
      * rewrite R. cbn [polled reads]. lia.
Qed.

Lemma WaitCtrlReady_loop_timeout (n : nat) (s : lcd) :
  val (WaitCtrlReady_loop n s) = Done true ->
  forall k, (k < n)%nat -> ready (DIN (reads s + k)) = false.
Proof.
  revert s. induction n as [|n IH]; intros s Hv k Hk; [lia |].
  rewrite WaitCtrlReady_loop_S in Hv.
  destruct (ready (DIN (reads s))) eqn:Hnow; [discriminate |].
  cbn [val] in Hv. destruct k as [|k].
  - rewrite Nat.add_0_r. exact Hnow.
  - specialize (IH (polled s) Hv k). cbn [polled reads] in IH.
    replace (reads s + S k)%nat with (S (reads s) + k)%nat by lia. apply IH. lia.
Qed.

Lemma WaitCtrlReady_loop_reads (n : nat) (s : lcd) :
  (reads (st (WaitCtrlReady_loop n s)) <= reads s + n)%nat.
Proof.
  revert s. induction n as [|n IH]; intros s.
  - cbn. lia.
  - rewrite WaitCtrlReady_loop_S. destruct (ready (DIN (reads s))); cbn [st].
    + cbn [polled reads]. lia.
    + specialize (IH (polled s)). cbn [polled reads] in IH. lia.
Qed.

Lemma WaitCtrlReady_loop_bus (n : nat) (s : lcd) :
  Forall (fun e => bus_event e = true) (evs (WaitCtrlReady_loop n s)).
Proof.
  revert s. induction n as [|n IH]; intros s.
  - constructor.
  - rewrite WaitCtrlReady_loop_S. destruct (ready (DIN (reads s))); cbn [evs].
    + repeat constructor.
    + apply Forall_app. split; [repeat constructor |].
      constructor; [reflexivity | apply IH].
Qed.

(** X1.  [WaitCtrlReady] reports a timeout exactly when the busy flag is set
    at each of the [LCD_WAIT_READY_TIMEOUT] samplings it may spend; in
    either case it returns after at most that many samplings. *)
Theorem WaitCtrlReady_timeout_iff (s : lcd) :
  (val (WaitCtrlReady s) = Done true <-> stuck_from (reads s)) /\
  (val (WaitCtrlReady s) = Done false <->
   exists k, (k < budget)%nat /\ ready (DIN (reads s + k)) = true) /\
  (reads s <= reads (st (WaitCtrlReady s)) <= reads s + budget)%nat.
Proof.
  split; [| split].
  - split.
    + intros Hv. exact (WaitCtrlReady_loop_timeout budget s Hv).
    + intros Hs. apply (WaitCtrlReady_loop_stuck budget s Hs).
  - split.
    + intros Hv.
      destruct (existsb (fun k => ready (DIN (reads s + k))) (seq 0 budget)) eqn:Hex.
      * apply existsb_exists in Hex. destruct Hex as (k & Hin & Hr).
        apply in_seq in Hin. exists k. split; [lia | exact Hr].
      * assert (Hs : stuck_from (reads s)).
        { intros k Hk. destruct (ready (DIN (reads s + k))) eqn:Hr; [| reflexivity].
          assert (Hc : existsb (fun k => ready (DIN (reads s + k))) (seq 0 budget) = true).
          { apply existsb_exists. exists k. split; [apply in_seq; lia | exact Hr]. }
          congruence. }
        pose proof (proj1 (WaitCtrlReady_loop_stuck budget s Hs)) as Ht.
        change (WaitCtrlReady_loop budget) with WaitCtrlReady in Ht. congruence.
    + intros H. apply WaitCtrlReady_loop_ready. exact H.
  - destruct (WaitCtrlReady_facts s) as (_ & _ & (_ & _ & Hlo & _) & _).
    pose proof (WaitCtrlReady_loop_reads budget s) as Hhi.
    change (WaitCtrlReady_loop budget) with WaitCtrlReady in Hhi. lia.
Qed.

(** X2.  When the busy flag is clear for the first time at the [k]-th
    sampling of a wait, [k] below the budget, [WaitCtrlReady] returns "ready"
    right after that sampling: its events are [k] polls, each followed by a
    short delay, and one last poll without a delay. *)
Theorem WaitCtrlReady_first_ready (k : nat) (s : lcd) :
  (k < budget)%nat -> ready (DIN (reads s + k)) = true ->
  (forall j, (j < k)%nat -> ready (DIN (reads s + j)) = false) ->
  val (WaitCtrlReady s) = Done false /\
  evs (WaitCtrlReady s) =
    flat_map (fun i => poll_events (DIN i) ++ [EvDelayTick]) (seq (reads s) k)
    ++ poll_events (DIN (reads s + k)) /\
  reads (st (WaitCtrlReady s)) = (reads s + k + 1)%nat.
Proof. apply WaitCtrlReady_loop_first. Qed.

(** *** One write, whatever the controller does *)

Lemma CmdWrite_ready (cmd : Z) (s : lcd) :
  val (WaitCtrlReady s) = Done false ->
  wire s (evs (CmdWrite cmd s)) = [Cmd (uint8 cmd)] /\
  st (CmdWrite cmd s) = written false (uint8 cmd) (st (WaitCtrlReady s)).
Proof.
  intros Hv. destruct (WaitCtrlReady_facts s) as (_ & Hw & _ & He & _).
  specialize (He Hv). rewrite CmdWrite_run, Hv. cbn [evs st]. split; [| reflexivity].
  rewrite wire_app, Hw, <- sound_WaitCtrlReady.
  rewrite <- (app_nil_r (write_events _ _)).
  rewrite wire_write by (auto using uint8_range). reflexivity.
Qed.

Lemma DataWrite_ready (data : Z) (s : lcd) :
  val (WaitCtrlReady s) = Done false ->
  wire s (evs (DataWrite data s)) = [Data (uint8 data)] /\
  st (DataWrite data s) = written true (uint8 data) (st (WaitCtrlReady s)).
Proof.
  intros Hv. destruct (WaitCtrlReady_facts s) as (_ & Hw & _ & He & _).
  specialize (He Hv). rewrite DataWrite_run, Hv. cbn [evs st]. split; [| reflexivity].
  rewrite wire_app, Hw, <- sound_WaitCtrlReady.
  rewrite <- (app_nil_r (write_events _ _)).
  rewrite wire_write by (auto using uint8_range). reflexivity.
Qed.

Lemma CmdWrite_timeout (cmd : Z) (s : lcd) :
  val (WaitCtrlReady s) = Done true ->
  wire s (evs (CmdWrite cmd s)) = [] /\ st (CmdWrite cmd s) = st (WaitCtrlReady s).
Proof.
  intros Hv. destruct (WaitCtrlReady_facts s) as (_ & Hw & _).
  rewrite CmdWrite_run, Hv. cbn [evs st]. rewrite app_nil_r. auto.
Qed.

Lemma DataWrite_timeout (data : Z) (s : lcd) :
  val (WaitCtrlReady s) = Done true ->
  wire s (evs (DataWrite data s)) = [] /\ st (DataWrite data s) = st (WaitCtrlReady s).
Proof.
  intros Hv. destruct (WaitCtrlReady_facts s) as (_ & Hw & _).
  rewrite DataWrite_run, Hv. cbn [evs st]. rewrite app_nil_r. auto.
Qed.

Lemma issue1_facts (x : xfer) (s : lcd) :
  val (issue1 x s) = Done tt /\
  bus_frame s (st (issue1 x s)) /\
  st (issue1 x s) = exec (evs (issue1 x s)) s /\
  (wire s (evs (issue1 x s)) = [] \/ wire s (evs (issue1 x s)) = [normal x]) /\
  (reads (st (issue1 x s)) <= reads s + budget)%nat /\
  Forall (fun e => bus_event e = true) (evs (issue1 x s)).
Proof.
  pose proof (WaitCtrlReady_loop_reads budget s) as Hhi.
  pose proof (WaitCtrlReady_loop_bus budget s) as Hbus.
  change (WaitCtrlReady_loop budget) with WaitCtrlReady in Hhi, Hbus.
  destruct (WaitCtrlReady_facts s) as ((b & Hv) & _).
  destruct x as [c|d]; cbn [issue1 normal].
  - destruct (CmdWrite_facts c s) as (V & F & _). splits; auto.
    + apply sound_CmdWrite.
    + destruct b; [left; apply CmdWrite_timeout | right; apply CmdWrite_ready]; exact Hv.
    + destruct b.
      * rewrite (proj2 (CmdWrite_timeout c s Hv)). exact Hhi.
      * rewrite (proj2 (CmdWrite_ready c s Hv)). cbn [written reads]. exact Hhi.
    + rewrite CmdWrite_run, Hv. destruct b; cbn [evs]; apply Forall_app; split; auto;
        repeat constructor.
  - destruct (DataWrite_facts d s) as (V & F & _). splits; auto.
    + apply sound_DataWrite.
    + destruct b; [left; apply DataWrite_timeout | right; apply DataWrite_ready]; exact Hv.
    + destruct b.
      * rewrite (proj2 (DataWrite_timeout d s Hv)). exact Hhi.
      * rewrite (proj2 (DataWrite_ready d s Hv)). cbn [written reads]. exact Hhi.
    + rewrite DataWrite_run, Hv. destruct b; cbn [evs]; apply Forall_app; split; auto;
        repeat constructor.
Qed.

(** X3.  Whatever the controller answers, [CmdWrite] and [DataWrite] return;
    the controller has then latched either nothing or the one byte of the
    call, as a command or as data, and the status has been sampled at most
    [LCD_WAIT_READY_TIMEOUT] times. *)
Theorem write_is_bounded (b : Z) (s : lcd) :
  (val (CmdWrite b s) = Done tt /\
   (wire s (evs (CmdWrite b s)) = [] \/ wire s (evs (CmdWrite b s)) = [Cmd (uint8 b)]) /\
   (reads s <= reads (st (CmdWrite b s)) <= reads s + budget)%nat) /\
  (val (DataWrite b s) = Done tt /\
   (wire s (evs (DataWrite b s)) = [] \/ wire s (evs (DataWrite b s)) = [Data (uint8 b)]) /\
   (reads s <= reads (st (DataWrite b s)) <= reads s + budget)%nat).
Proof.
  destruct (issue1_facts (Cmd b) s) as (V1 & (_ & _ & L1 & _) & _ & W1 & R1 & _).
  destruct (issue1_facts (Data b) s) as (V2 & (_ & _ & L2 & _) & _ & W2 & R2 & _).
  cbn [issue1 normal] in *. repeat split; auto.
Qed.

(** *** Sequences of writes, whatever the controller does *)

Lemma subseq_nil_l {A} (l : list A) : subseq [] l.
Proof. induction l; constructor; assumption. Qed.

Lemma subseq_app {A} (l1 l2 l3 l4 : list A) :
  subseq l1 l2 -> subseq l3 l4 -> subseq (l1 ++ l3) (l2 ++ l4).
Proof.
  intros H12 H34. induction H12; cbn [app]; try constructor; assumption.
Qed.

Lemma latch_keep (s : lcd) (e : event) :
  pin_E (apply e s) = pin_E s -> latch s e = [].
Proof. intros H. unfold latch. rewrite H. destruct (pin_E s); reflexivity. Qed.

Lemma issue_facts (l : list xfer) (s : lcd) :
  val (issue l s) = Done tt /\
  bus_frame s (st (issue l s)) /\
  st (issue l s) = exec (evs (issue l s)) s /\
  subseq (wire s (evs (issue l s))) (map normal l) /\
  (reads (st (issue l s)) <= reads s + length l * budget)%nat /\
  Forall (fun e => bus_event e = true) (evs (issue l s)).
Proof.
  revert s. induction l as [|x l IH]; intros s.
  - cbn [issue ret val st evs wire map length exec fold_left].
    splits; auto using bus_frame_refl; try lia; constructor.
  - destruct (issue1_facts x s) as (V1 & F1 & S1 & W1 & R1 & B1).
    destruct (IH (st (issue1 x s))) as (V2 & F2 & S2 & W2 & R2 & B2).
    cbn [issue]. rewrite (bind_Done _ _ _ _ V1). cbn [val st evs map length]. splits.
    + exact V2.
    + eapply bus_frame_trans; eassumption.
    + rewrite exec_app, <- S1. exact S2.
    + rewrite wire_app, <- S1.
      change (normal x :: map normal l) with ([normal x] ++ map normal l).
      apply subseq_app; [| exact W2].
      destruct W1 as [-> | ->]; [apply subseq_nil_l | apply subseq_take, subseq_nil].
    + lia.
    + apply Forall_app. split; assumption.
Qed.

Lemma gpio_setup_run (s : lcd) :
  gpio_setup s = mkOut setup_events (exec setup_events s) (Done tt).
Proof. reflexivity. Qed.

(** [LCD_PowerOn] as a run: the set-up, the writes, the flag. *)
Lemma LCD_PowerOn_run (s : lcd) :
  LCD_PowerOn s =
  mkOut (setup_events
         ++ evs (issue init_transfers (exec setup_events s)) ++ [EvIsOn true])
        (apply (EvIsOn true) (st (issue init_transfers (exec setup_events s))))
        (Done tt).
Proof.
  rewrite LCD_PowerOn_issues.
  rewrite (bind_Done _ _ _ _ (f_equal val (gpio_setup_run s))).
  rewrite gpio_setup_run. cbn [evs st].
  rewrite (bind_Done _ _ _ _ (proj1 (issue_facts init_transfers (exec setup_events s)))).
  reflexivity.
Qed.

(** X4.  [LCD_PowerOn] always returns, whatever the controller answers and
    even when every one of its writes times out, and it returns with the flag
    [l_flgLCD_IsOn] set, the power pin high and the enable line low; its 81
    writes sample the status at most 81 times the timeout budget. *)
Theorem LCD_PowerOn_completes (s : lcd) :
  val (LCD_PowerOn s) = Done tt /\
  l_flgLCD_IsOn (st (LCD_PowerOn s)) = true /\
  power_pin (st (LCD_PowerOn s)) = true /\
  pin_E (st (LCD_PowerOn s)) = false /\
  (reads s <= reads (st (LCD_PowerOn s)) <= reads s + 81 * budget)%nat.
Proof.
  rewrite LCD_PowerOn_run. cbn [val st].
  destruct (issue_facts init_transfers (exec setup_events s))
    as (_ & (_ & P & R & E) & _ & _ & B & _).
  change (length init_transfers) with 81%nat in B.
  splits.
  - reflexivity.
  - reflexivity.
  - cbn [apply power_pin]. rewrite P. reflexivity.
  - cbn [apply pin_E]. apply E. reflexivity.
  - cbn [apply reads]. change (reads (exec setup_events s)) with (reads s) in R. exact R.
  - cbn [apply reads]. change (reads (exec setup_events s)) with (reads s) in B. exact B.
Qed.

(** X5.  The events of [LCD_PowerOn] are the GPIO set-up, which ends with
    the power pin going high and the delay of 100 ms, then only events of bus
    transfers, and as the very last event the write that sets the flag
    [l_flgLCD_IsOn]: no bus access precedes the settle delay and the flag is
    not touched before the sequence is through. *)
Theorem LCD_PowerOn_events (s : lcd) :
  exists transfers,
    evs (LCD_PowerOn s) = setup_events ++ transfers ++ [EvIsOn true] /\
    Forall (fun e => bus_event e = true) transfers.
Proof.
  exists (evs (issue init_transfers (exec setup_events s))).
  rewrite LCD_PowerOn_run. split; [reflexivity | apply issue_facts].
Qed.

(** X6.  Started with the enable line low, [LCD_PowerOn] never hands the
    controller anything but its initialisation sequence: whatever the
    controller answers, the bytes latched are [init_transfers] with the
    writes that timed out left out, in the same order. *)
Theorem LCD_PowerOn_subsequence (s : lcd) :
  pin_E s = false ->
  subseq (wire s (evs (LCD_PowerOn s))) init_transfers.
Proof.
  intros HE. rewrite LCD_PowerOn_run. cbn [evs].
  destruct (issue_facts init_transfers (exec setup_events s))
    as (_ & _ & S & W & _ & _).
  rewrite wire_app, wire_app, <- S.
  replace (wire s setup_events) with (@nil xfer)
    by (destruct s; cbn in HE; subst; reflexivity).
  cbn [wire app]. rewrite latch_keep by reflexivity. rewrite app_nil_r.
  exact W.
Qed.

(** X7.  A power cycle initialises the display from any state: after
    [LCD_PowerOff], with a controller that answers within the timeout,
    [LCD_PowerOn] returns after the controller has latched exactly
    [init_transfers]. *)
Theorem power_cycle (s : lcd) :
  responsive_from (reads s) ->
  val (LCD_PowerOn (st (LCD_PowerOff s))) = Done tt /\
  wire (st (LCD_PowerOff s)) (evs (LCD_PowerOn (st (LCD_PowerOff s)))) = init_transfers.
Proof.
  intros H. apply LCD_PowerOn_sends; [reflexivity | exact H].
Qed.

(** *** What the output operations leave alone *)

Lemma framed_ret {A} (a : A) : framed (ret a).
Proof. intros s. apply bus_frame_refl. Qed.

Lemma framed_halt {A} : framed (@halt A).
Proof. intros s. apply bus_frame_refl. Qed.

Lemma framed_fault {A} : framed (@fault A).
Proof. intros s. apply bus_frame_refl. Qed.

Lemma framed_mem {A} (o : option A) : framed (mem o).
Proof. destruct o; [apply framed_ret | apply framed_fault]. Qed.

Lemma framed_IsOn : framed IsOn.
Proof. intros s. apply bus_frame_refl. Qed.

Lemma framed_if {A} (b : bool) (m1 m2 : M A) :
  framed m1 -> framed m2 -> framed (if b then m1 else m2).
Proof. destruct b; auto. Qed.

Lemma framed_EFM_ASSERT (expr : bool) : framed (EFM_ASSERT expr).
Proof. unfold EFM_ASSERT. apply framed_if; [apply framed_halt | apply framed_ret]. Qed.

Lemma framed_bind {A B} (m : M A) (f : A -> M B) :
  framed m -> (forall a, framed (f a)) -> framed (bind m f).
Proof.
  intros Hm Hf s. unfold bind.
  destruct (val (m s)) as [a| |]; cbn [st]; try apply Hm.
  eapply bus_frame_trans; [apply Hm | apply Hf].
Qed.

Lemma framed_vsprintf (frmt : list byte) (args : va_list) : framed (vsprintf frmt args).
Proof.
  unfold vsprintf. apply framed_bind.
  - intros s. apply bus_frame_refl.
  - intros _. apply framed_if; [apply framed_ret | apply framed_fault].
Qed.

Lemma framed_forget {A} (m : M A) : framed m -> framed (forget m).
Proof. intros H s. apply H. Qed.

Lemma framed_BusyRead : framed BusyRead.
Proof.
  intros s. rewrite BusyRead_run. unfold bus_frame, polled; cbn. auto.
Qed.

Lemma framed_CmdWrite (cmd : Z) : framed (CmdWrite cmd).
Proof. intros s. apply CmdWrite_facts. Qed.

Lemma framed_DataWrite (data : Z) : framed (DataWrite data).
Proof. intros s. apply DataWrite_facts. Qed.

Create HintDb framed discriminated.
#[local] Hint Resolve framed_ret framed_halt framed_fault framed_mem framed_IsOn
  framed_EFM_ASSERT framed_vsprintf framed_forget framed_BusyRead framed_CmdWrite
  framed_DataWrite : framed.

Ltac framed_steps :=
  repeat first
    [ solve [auto with framed]
    | apply framed_bind; [| intros ?]
    | apply framed_if ].

Lemma framed_LCD_Putc (c : byte) : framed (LCD_Putc c).
Proof. unfold LCD_Putc. framed_steps. Qed.

Lemma framed_LCD_Puts (pStr : list byte) : framed (LCD_Puts pStr).
Proof.
  induction pStr as [|c rest IH]; cbn [LCD_Puts].
  - apply framed_fault.
  - apply framed_if; [apply framed_ret |].
    apply framed_bind; [apply framed_LCD_Putc | intros _; exact IH].
Qed.

Lemma framed_LCD_GotoXY (x y : Z) : framed (LCD_GotoXY x y).
Proof. unfold LCD_GotoXY. framed_steps. Qed.

#[local] Hint Resolve framed_LCD_Putc framed_LCD_Puts framed_LCD_GotoXY : framed.

Lemma framed_LCD_WriteLine (lineNum : Z) (buffer : list byte) :
  framed (LCD_WriteLine lineNum buffer).
Proof. unfold LCD_WriteLine. framed_steps. Qed.

#[local] Hint Resolve framed_LCD_WriteLine : framed.

Lemma framed_LCD_vPrintf (lineNum : Z) (frmt : list byte) (args : va_list) :
  framed (LCD_vPrintf lineNum frmt args).
Proof. unfold LCD_vPrintf. framed_steps. Qed.

(** X8.  Only power-on and power-off change the flag [l_flgLCD_IsOn] and the
    power pin: every other operation of the driver, however it ends, leaves
    both as they were. *)
Theorem output_keeps_power (op : operation) (s : lcd) :
  op <> OpInit -> op <> OpPowerOn -> op <> OpPowerOff ->
  l_flgLCD_IsOn (st (run op s)) = l_flgLCD_IsOn s /\
  power_pin (st (run op s)) = power_pin s.
Proof.
  intros H1 H2 H3.
  assert (F : framed (run op)).
  { destruct op; try contradiction; cbn [run]; unfold LCD_Printf;
      auto using framed_LCD_vPrintf with framed. }
  destruct (F s) as (Hf & Hp & _). split; assumption.
Qed.

(** *** Cursor positioning in the two builds *)

(** X9.  In a debug build, with the display on, [LCD_GotoXY] for a column or
    a row that is not on the display stops at its assertion: nothing has
    been sent and no register has changed. *)
Theorem LCD_GotoXY_debug_halts (x y : Z) (s : lcd) :
  DEBUG_EFM = true -> l_flgLCD_IsOn s = true ->
  0 <= x < 256 -> 0 <= y < 256 ->
  LCD_DIMENSION_X <= x \/ LCD_DIMENSION_Y <= y ->
  LCD_GotoXY x y s = mkOut [] s Halted.
Proof.
  intros Hdbg Hon Hx Hy Hout. apply LCD_GotoXY_debug; try assumption.
  rewrite !uint8_small by assumption. apply andb_false_iff.
  destruct Hout; [left | right]; apply Z.ltb_ge; assumption.
Qed.

(** X10.  In a release build, with the display on and a controller that
    answers within the timeout, [LCD_GotoXY] rejects nothing: for all
    coordinates it returns after one command, the set-address command with
    the address [y * 0x40 + x] reduced modulo 256. *)
Theorem LCD_GotoXY_release_wraps (x y : Z) (s : lcd) :
  DEBUG_EFM = false -> l_flgLCD_IsOn s = true ->
  0 <= x < 256 -> 0 <= y < 256 -> responsive_from (reads s) ->
  val (LCD_GotoXY x y s) = Done tt /\
  wire s (evs (LCD_GotoXY x y s))
  = [Cmd (Z.lor LCD_CMD_SET_DDRAM_ADDR ((y * 0x40 + x) mod 256))].
Proof.
  intros Hrel Hon Hx Hy H. rewrite LCD_GotoXY_release by assumption.
  rewrite (uint8_small x), (uint8_small y) by assumption.
  destruct (CmdWrite_sends
              (Z.lor LCD_CMD_SET_DDRAM_ADDR (uint8 (y * 0x40 + x))) s H)
    as (V & W & _ & _).
  split; [exact V |]. rewrite W. rewrite lor_uint8.
  - reflexivity.
  - unfold LCD_CMD_SET_DDRAM_ADDR. lia.
  - apply uint8_range.
Qed.

(** *** Strings at the cursor *)

(** X11.  With the display on and a controller that answers within the
    timeout, [LCD_Puts] returns after one data byte for each character before
    the first terminator, in order; what follows the terminator in the array
    is not sent. *)
Theorem LCD_Puts_on (text rest : list byte) (s : lcd) :
  Forall (fun c => c <> EOS) text ->
  l_flgLCD_IsOn s = true -> responsive_from (reads s) ->
  val (LCD_Puts (text ++ EOS :: rest) s) = Done tt /\
  wire s (evs (LCD_Puts (text ++ EOS :: rest) s)) = map (fun c => Data (char_code c)) text.
Proof.
  intros Ht Hon H. split; [apply LCD_Puts_returns | apply LCD_Puts_sends]; assumption.
Qed.

(** *** The lines after a write *)

Lemma WaitCtrlReady_loop_stuck_state (n : nat) (s : lcd) :
  (forall k, (k < S n)%nat -> ready (DIN (reads s + k)) = false) ->
  st (WaitCtrlReady_loop (S n) s) =
  mkLcd (l_flgLCD_IsOn s) (power_pin s) false true false LCD_DATA_MODE_IN (DOUT s)
        (reads s + S n).
Proof.
  revert s. induction n as [|n IH]; intros s Hb.
  - rewrite WaitCtrlReady_loop_S.
    rewrite <- (Nat.add_0_r (reads s)) at 1. rewrite (Hb 0%nat) by lia.
    cbn. unfold polled. f_equal. lia.
  - rewrite WaitCtrlReady_loop_S.
    rewrite <- (Nat.add_0_r (reads s)) at 1. rewrite (Hb 0%nat) by lia.
    cbn [st]. rewrite IH.
    + cbn [polled l_flgLCD_IsOn power_pin DOUT reads]. f_equal. lia.
    + intros k Hk. cbn [polled reads].
      replace (S (reads s) + k)%nat with (reads s + S k)%nat by lia. apply Hb. lia.
Qed.

(** X12.  A write that goes through leaves the bus driven by the
    microcontroller with the byte on it, RW and E low, and RS telling a
    command from data. *)
Theorem write_leaves_bus_driven (b : Z) (s : lcd) :
  responsive_from (reads s) ->
  (let s' := st (CmdWrite b s) in
   MODEH s' = LCD_DATA_MODE_OUT /\ DOUT s' = Z.shiftl (uint8 b) 8 /\
   pin_RW s' = false /\ pin_RS s' = false /\ pin_E s' = false) /\
  (let s' := st (DataWrite b s) in
   MODEH s' = LCD_DATA_MODE_OUT /\ DOUT s' = Z.shiftl (uint8 b) 8 /\
   pin_RW s' = false /\ pin_RS s' = true /\ pin_E s' = false).
Proof.
  intros H. pose proof (responsive_now s H) as Hv. cbv zeta.
  rewrite (proj2 (CmdWrite_ready b s Hv)), (proj2 (DataWrite_ready b s Hv)).
  cbn. auto 10.
Qed.

(** X13.  A write that times out, with a budget of at least one poll, leaves
    the bus switched to input with RW high, as the last poll left it, and E
    low; the output register of the bus keeps its old value. *)
Theorem timeout_leaves_bus_reading (b : Z) (s : lcd) :
  (0 < budget)%nat -> stuck_from (reads s) ->
  (let s' := st (CmdWrite b s) in
   MODEH s' = LCD_DATA_MODE_IN /\ DOUT s' = DOUT s /\
   pin_RW s' = true /\ pin_RS s' = false /\ pin_E s' = false) /\
  (let s' := st (DataWrite b s) in
   MODEH s' = LCD_DATA_MODE_IN /\ DOUT s' = DOUT s /\
   pin_RW s' = true /\ pin_RS s' = false /\ pin_E s' = false).
Proof.
  intros Hpos Hs. cbv zeta.
  pose proof (proj1 (WaitCtrlReady_loop_stuck budget s Hs)) as Hv.
  change (WaitCtrlReady_loop budget) with WaitCtrlReady in Hv.
  rewrite (proj2 (CmdWrite_timeout b s Hv)), (proj2 (DataWrite_timeout b s Hv)).
  unfold WaitCtrlReady. fold budget. unfold stuck_from in Hs.
  destruct budget as [|n]; [lia |].
  rewrite (WaitCtrlReady_loop_stuck_state n s Hs). cbn. auto 10.
Qed.

(** *** Lines, once more *)

(** The transfers of a line, with what the call returns and leaves. *)
Lemma LCD_WriteLine_on (lineNum : Z) (text rest : list byte) (s : lcd) :
  lineNum = 1 \/ lineNum = 2 ->
  0 < LCD_DIMENSION_X -> 2 <= LCD_DIMENSION_Y ->
  Forall (fun c => c <> EOS) text ->
  LCD_DIMENSION_X < Z.of_nat (length (text ++ EOS :: rest)) ->
  l_flgLCD_IsOn s = true -> responsive_from (reads s) ->
  (exists buffer', val (LCD_WriteLine lineNum (text ++ EOS :: rest) s) = Done buffer') /\
  wire s (evs (LCD_WriteLine lineNum (text ++ EOS :: rest) s))
  = Cmd (Z.lor LCD_CMD_SET_DDRAM_ADDR ((lineNum - 1) * 0x40))
    :: map (fun c => Data (char_code c)) (line_text (Z.to_nat LCD_DIMENSION_X) text).
Proof.
  intros Hline HX HY Ht Hcap Hon H.
  rewrite LCD_WriteLine_run by (auto; lia). cbv zeta.
  pose proof (LCD_GotoXY_line lineNum s Hline HX HY Hon) as Hgo.
  destruct (CmdWrite_sends
              (Z.lor LCD_CMD_SET_DDRAM_ADDR ((lineNum - 1) * 0x40)) s H)
    as (V & W & S & R).
  destruct (CmdWrite_facts
              (Z.lor LCD_CMD_SET_DDRAM_ADDR ((lineNum - 1) * 0x40)) s)
    as (_ & (F & _) & _).
  rewrite <- Hgo in V, W, S, R, F.
  rewrite (bind_Done _ _ _ _ V). cbn [evs val].
  set (s1 := st (LCD_GotoXY 0 (lineNum - 1) s)) in *.
  assert (Hno : Forall (fun c => c <> EOS) (line_text (Z.to_nat LCD_DIMENSION_X) text))
    by (apply line_text_no_EOS; exact Ht).
  rewrite (bind_Done _ _ _ _ (LCD_Puts_returns _ _ s1 Hno)).
  cbn [evs val ret]. split; [eauto |].
  rewrite wire_app, <- S, W, app_nil_r.
  rewrite LCD_Puts_sends by (auto; congruence).
  rewrite lor_uint8.
  - reflexivity.
  - unfold LCD_CMD_SET_DDRAM_ADDR; lia.
  - destruct Hline; subst lineNum; lia.
Qed.

(** X14.  [LCD_WriteLine] for a line number other than 1 and 2 does nothing:
    no event, no change of the state, and the caller's array is returned as
    it was; a debug build stops at the assertion instead of returning. *)
Theorem LCD_WriteLine_bad_line (lineNum : Z) (buffer : list byte) (s : lcd) :
  lineNum < 1 \/ 2 < lineNum ->
  LCD_WriteLine lineNum buffer s =
  mkOut [] s (if DEBUG_EFM then Halted else Done buffer).
Proof.
  intros Hline. unfold LCD_WriteLine.
  replace ((lineNum <? 1) || (lineNum >? 2)) with true.
  - unfold bind. rewrite EFM_ASSERT_fails. destruct DEBUG_EFM; reflexivity.
  - symmetry. apply orb_true_iff.
    destruct Hline; [left; apply Z.ltb_lt | right; rewrite Z.gtb_ltb; apply Z.ltb_lt];
      assumption.
Qed.

(** X15.  With the display off, [LCD_WriteLine] for line 1 or 2 still cuts or
    fills the caller's array and returns it, but produces no event and
    changes no register. *)
Theorem LCD_WriteLine_off (lineNum : Z) (text rest : list byte) (s : lcd) :
  lineNum = 1 \/ lineNum = 2 -> 0 <= LCD_DIMENSION_X ->
  Forall (fun c => c <> EOS) text ->
  LCD_DIMENSION_X < Z.of_nat (length (text ++ EOS :: rest)) ->
  l_flgLCD_IsOn s = false ->
  LCD_WriteLine lineNum (text ++ EOS :: rest) s =
  mkOut [] s
    (Done (line_text (Z.to_nat LCD_DIMENSION_X) text
           ++ EOS :: skipn (S (Z.to_nat LCD_DIMENSION_X)) (text ++ EOS :: rest))).
Proof.
  intros Hline HX Ht Hcap Hoff.
  rewrite LCD_WriteLine_run by assumption. cbv zeta.
  rewrite (bind_quiet _ _ _ _ _ (LCD_GotoXY_off 0 (lineNum - 1) s Hoff)).
  set (final := line_text _ text ++ EOS :: _).
  pose proof (LCD_Puts_returns (line_text (Z.to_nat LCD_DIMENSION_X) text)
                (skipn (S (Z.to_nat LCD_DIMENSION_X)) (text ++ EOS :: rest)) s
                (line_text_no_EOS _ _ Ht)) as V.
  destruct (LCD_Puts_off final s Hoff) as (E & S).
  fold final in V. unfold bind. rewrite V, E, S. reflexivity.
Qed.

Lemma line_text_exact (width : nat) (text : list byte) :
  length text = width -> line_text width text = text.
Proof.
  intros H. unfold line_text. rewrite H, Nat.sub_diag. cbn [repeat].
  rewrite app_nil_r. rewrite <- H. apply firstn_all.
Qed.

(** X16.  The array [LCD_WriteLine] returns is a fixed point: handed to
    [LCD_WriteLine] again, for either line and in any state, it comes back
    unchanged. *)
Theorem LCD_WriteLine_again (line1 line2 : Z) (text rest : list byte) (s s' : lcd) :
  line1 = 1 \/ line1 = 2 -> line2 = 1 \/ line2 = 2 ->
  0 < LCD_DIMENSION_X -> 2 <= LCD_DIMENSION_Y ->
  Forall (fun c => c <> EOS) text ->
  LCD_DIMENSION_X < Z.of_nat (length (text ++ EOS :: rest)) ->
  exists buffer',
    val (LCD_WriteLine line1 (text ++ EOS :: rest) s) = Done buffer' /\
    val (LCD_WriteLine line2 buffer' s') = Done buffer'.
Proof.
  intros H1 H2 HX HY Ht Hcap.
  set (width := Z.to_nat LCD_DIMENSION_X).
  set (tail := skipn (S width) (text ++ EOS :: rest)).
  exists (line_text width text ++ EOS :: tail).
  pose proof (length_line_text width text) as Hlen.
  pose proof (line_text_no_EOS width text Ht) as Hno.
  assert (Hrun : forall lineNum t r st0,
             lineNum = 1 \/ lineNum = 2 -> Forall (fun c => c <> EOS) t ->
             LCD_DIMENSION_X < Z.of_nat (length (t ++ EOS :: r)) ->
             val (LCD_WriteLine lineNum (t ++ EOS :: r) st0)
             = Done (line_text width t ++ EOS :: skipn (S width) (t ++ EOS :: r))).
  { intros lineNum t r st0 Hl Hnt Hc.
    rewrite LCD_WriteLine_run by (auto; lia). cbv zeta.
    rewrite (bind_Done _ _ _ _ (LCD_GotoXY_line_returns lineNum st0 Hl HX HY)).
    cbn [val].
    rewrite (bind_Done _ _ _ _ (LCD_Puts_returns _ _ _ (line_text_no_EOS _ _ Hnt))).
    reflexivity. }
  split.
  - apply Hrun; assumption.
  - rewrite Hrun; auto.
    + rewrite (line_text_exact width _ Hlen).
      replace (S width) with (length (line_text width text) + 1)%nat at 1 by lia.
      rewrite skipn_past. reflexivity.
    + rewrite length_app, Hlen. cbn [length]. lia.
Qed.

(** X17.  After [LCD_PowerOn], whatever state it started from, the display
    takes a line: with a controller that answers within the timeout,
    [LCD_WriteLine] then sends the set-address command of the line and the
    width characters of the text. *)
Theorem LCD_WriteLine_after_PowerOn (lineNum : Z) (text rest : list byte) (s : lcd) :
  lineNum = 1 \/ lineNum = 2 ->
  0 < LCD_DIMENSION_X -> 2 <= LCD_DIMENSION_Y ->
  Forall (fun c => c <> EOS) text ->
  LCD_DIMENSION_X < Z.of_nat (length (text ++ EOS :: rest)) ->
  responsive_from (reads s) ->
  let s1 := st (LCD_PowerOn s) in
  wire s1 (evs (LCD_WriteLine lineNum (text ++ EOS :: rest) s1))
  = Cmd (Z.lor LCD_CMD_SET_DDRAM_ADDR ((lineNum - 1) * 0x40))
    :: map (fun c => Data (char_code c)) (line_text (Z.to_nat LCD_DIMENSION_X) text).
Proof.
  intros Hline HX HY Ht Hcap H s1.
  apply LCD_WriteLine_on; try assumption.
  - subst s1. rewrite LCD_PowerOn_run. reflexivity.
  - subst s1. rewrite LCD_PowerOn_run. cbn [st apply reads].
    destruct (issue_facts init_transfers (exec setup_events s))
      as (_ & (_ & _ & R & _) & _).
    apply (responsive_from_mono (reads s)); [exact R | exact H].
Qed.

(** *** Formatted lines *)

Lemma vsprintf_fits (frmt : list byte) (args : va_list) (s : lcd) :
  (length (formatted frmt args) < 40)%nat ->
  vsprintf frmt args s =
  mkOut [EvVsprintf] s
    (Done (formatted frmt args
           ++ EOS :: map uninit (seq (length (formatted frmt args ++ [EOS]))
                                     (40 - length (formatted frmt args ++ [EOS]))))).
Proof.
  intros H. unfold vsprintf.
  replace (length (formatted frmt args ++ [EOS]) <=? 40)%nat with true.
  - unfold bind, emit, ret. cbn [val st evs apply app]. rewrite <- app_assoc. reflexivity.
  - symmetry. apply Nat.leb_le. rewrite length_app. cbn [length]. lia.
Qed.

(** X18.  With the display on, a format string of at most 30 characters, and
    a formatted text without terminator of fewer than 40 characters on a
    display narrower than 40 columns, [LCD_vPrintf] returns after the line
    has gone out as by [LCD_WriteLine]: the set-address command of the line,
    then the formatted text cut or filled to the width. *)
Theorem LCD_vPrintf_line (lineNum : Z) (frmt : list byte) (args : va_list)
    (n : Z) (s : lcd) :
  lineNum = 1 \/ lineNum = 2 ->
  0 < LCD_DIMENSION_X < 40 -> 2 <= LCD_DIMENSION_Y ->
  strlen frmt = Some n -> n <= 30 ->
  Forall (fun c => c <> EOS) (formatted frmt args) ->
  (length (formatted frmt args) < 40)%nat ->
  l_flgLCD_IsOn s = true -> responsive_from (reads s) ->
  val (LCD_vPrintf lineNum frmt args s) = Done tt /\
  wire s (evs (LCD_vPrintf lineNum frmt args s))
  = Cmd (Z.lor LCD_CMD_SET_DDRAM_ADDR ((lineNum - 1) * 0x40))
    :: map (fun c => Data (char_code c))
           (line_text (Z.to_nat LCD_DIMENSION_X) (formatted frmt args)).
Proof.
  intros Hline HX HY Hn Hshort Ht Hfit Hon H.
  unfold LCD_vPrintf. rewrite bind_IsOn, Hon. cbn [negb].
  rewrite Hn, bind_mem_Some. change (40 - 10) with 30.
  replace (n >? 30) with false by (symmetry; rewrite Z.gtb_ltb; apply Z.ltb_ge; lia).
  rewrite (bind_Done _ _ _ _ (f_equal val (vsprintf_fits frmt args s Hfit))).
  rewrite (vsprintf_fits frmt args s Hfit). cbn [evs st val].
  set (rest := map uninit _).
  destruct (LCD_WriteLine_on lineNum (formatted frmt args) rest s)
    as ((buffer' & V) & W); try assumption; try lia.
  { rewrite length_app. cbn [length]. unfold rest. rewrite length_map, length_seq.
    rewrite length_app. cbn [length]. lia. }
  rewrite (bind_Done _ _ _ _ V). cbn [evs val ret]. split; [reflexivity |].
  rewrite app_nil_r. cbn [app wire]. rewrite latch_keep by reflexivity.
  exact W.
Qed.


(** *** A controller that never answers *)

Lemma issue_dead (l : list xfer) (s : lcd) :
  (forall n, ready (DIN n) = false) -> wire s (evs (issue l s)) = [].
Proof.
  intros Hdead. revert s. induction l as [|x l IH]; intros s.
  - reflexivity.
  - destruct (issue1_facts x s) as (V1 & _ & S1 & _).
    assert (Hv : val (WaitCtrlReady s) = Done true).
    { apply (WaitCtrlReady_loop_stuck budget s). intros k _. apply Hdead. }
    assert (W1 : wire s (evs (issue1 x s)) = []).
    { destruct x; cbn [issue1]; [apply CmdWrite_timeout | apply DataWrite_timeout];
        exact Hv. }
    cbn [issue]. rewrite (bind_Done _ _ _ _ V1). cbn [evs].
    rewrite wire_app, <- S1, W1, IH. reflexivity.
Qed.

(** X20.  The flag [l_flgLCD_IsOn] does not tell that the display has been
    initialised: with a controller whose busy flag never clears, and the
    enable line low at the start, [LCD_PowerOn] returns with the flag set
    although the controller has latched not a single byte. *)
Theorem LCD_PowerOn_dead_controller (s : lcd) :
  pin_E s = false -> (forall n, ready (DIN n) = false) ->
  val (LCD_PowerOn s) = Done tt /\
  wire s (evs (LCD_PowerOn s)) = [] /\
  l_flgLCD_IsOn (st (LCD_PowerOn s)) = true.
Proof.
  intros HE Hdead. rewrite LCD_PowerOn_run. cbn [val evs st]. splits; try reflexivity.
  destruct (issue_facts init_transfers (exec setup_events s)) as (_ & _ & S & _).
  rewrite wire_app, wire_app, <- S.
  replace (wire s setup_events) with (@nil xfer)
    by (destruct s; cbn in HE; subst; reflexivity).
  rewrite issue_dead by exact Hdead.
  cbn [wire app]. rewrite app_nil_r. apply latch_keep. reflexivity.
Qed.

End Driver.

(** ** The claims at the concrete display *)

Lemma ready_DIN_responsive (n0 : nat) : responsive_from COUNTS_32768 ready_DIN n0.
Proof.
  intros n _. exists 0%nat. split; [vm_compute; lia | reflexivity].
Qed.

Lemma busy_DIN_stuck (n0 : nat) : stuck_from COUNTS_32768 busy_DIN n0.
Proof. intros k _. reflexivity. Qed.

Lemma hello_no_EOS : Forall (fun c => c <> EOS) hello.
Proof. repeat constructor; discriminate. Qed.

(** C1.  In a release build the range check of [LCD_GotoXY] has no effect:
    with the display on, [LCD_GotoXY (16, 0)] on the display of 16 columns,
    a column that is not on the display, returns as usual after it has sent
    the set-address command [0x90], the address [0x10]. *)
Theorem LCD_GotoXY_out_of_range_release :
  val (LCD_GotoXY DOGM162_X DOGM162_Y COUNTS_32768 false ready_DIN 16 0 s_on) = Done tt /\
  wire s_on (evs (LCD_GotoXY DOGM162_X DOGM162_Y COUNTS_32768 false ready_DIN 16 0 s_on))
  = [Cmd 0x90].
Proof. vm_compute. split; reflexivity. Qed.

(** A debug build stops at the range check and sends nothing. *)
Example LCD_GotoXY_out_of_range_debug :
  LCD_GotoXY DOGM162_X DOGM162_Y COUNTS_32768 true ready_DIN 16 0 s_on
  = mkOut [] s_on Halted.
Proof. reflexivity. Qed.

Lemma LCD_GotoXY_sets_address_witness :
  (0 <= 5 < DOGM162_X /\ 0 <= 1 < DOGM162_Y) /\
  val (LCD_GotoXY DOGM162_X DOGM162_Y COUNTS_32768 true ready_DIN 5 1 s_on) = Done tt /\
  wire s_on (evs (LCD_GotoXY DOGM162_X DOGM162_Y COUNTS_32768 true ready_DIN 5 1 s_on))
  = [Cmd 0xC5].
Proof.
  split; [unfold DOGM162_X, DOGM162_Y; lia |].
  apply (LCD_GotoXY_sets_address DOGM162_X DOGM162_Y COUNTS_32768 true ready_DIN 5 1 s_on).
  - unfold DOGM162_X; lia.
  - unfold DOGM162_Y; lia.
  - unfold DOGM162_X, DOGM162_Y; lia.
  - reflexivity.
  - apply ready_DIN_responsive.
Defined.

Lemma LCD_WriteLine_transfers_witness :
  wire s_on (evs (LCD_WriteLine DOGM162_X DOGM162_Y COUNTS_32768 true ready_DIN
                    1 (hello ++ EOS :: hello_rest) s_on))
  = Cmd 0x80 :: map Data [72; 101; 108; 108; 111; 32; 32; 32; 32; 32; 32; 32; 32; 32; 32; 32].
Proof.
  refine (proj1 (LCD_WriteLine_transfers DOGM162_X DOGM162_Y COUNTS_32768 true ready_DIN
                   1 hello hello_rest s_on _ _ _ _ _ _ _)).
  - left; reflexivity.
  - unfold DOGM162_X; lia.
  - unfold DOGM162_Y; lia.
  - apply hello_no_EOS.
  - vm_compute; reflexivity.
  - reflexivity.
  - apply ready_DIN_responsive.
Defined.

Lemma LCD_WriteLine_buffer_witness :
  exists buffer',
    val (LCD_WriteLine DOGM162_X DOGM162_Y COUNTS_32768 true ready_DIN
           2 (hello ++ EOS :: hello_rest) s_off) = Done buffer' /\
    firstn 16 buffer' = line_text 16 hello /\
    nth_error buffer' 16 = Some EOS /\
    skipn 17 buffer' = skipn 17 (hello ++ EOS :: hello_rest) /\
    length buffer' = length (hello ++ EOS :: hello_rest).
Proof.
  refine (proj1 (LCD_WriteLine_buffer DOGM162_X DOGM162_Y COUNTS_32768 true ready_DIN
                   2 hello hello_rest s_off _ _ _ _) _).
  - right; reflexivity.
  - unfold DOGM162_X; lia.
  - unfold DOGM162_Y; lia.
  - apply hello_no_EOS.
  - vm_compute; reflexivity.
Defined.

Lemma write_skipped_on_timeout_witness :
  val (CmdWrite COUNTS_32768 busy_DIN 0x01 s_on) = Done tt /\
  length (filter is_DIN (evs (CmdWrite COUNTS_32768 busy_DIN 0x01 s_on))) = 32%nat /\
  wire s_on (evs (CmdWrite COUNTS_32768 busy_DIN 0x01 s_on)) = [].
Proof.
  pose proof (write_skipped_on_timeout COUNTS_32768 busy_DIN 0x01 s_on
                (busy_DIN_stuck (reads s_on))) as ((V & E) & _ & W & _ & _ & R).
  rewrite E. splits; [exact V | exact R | exact W].
Defined.

Lemma off_is_silent_witness :
  LCD_GotoXY DOGM162_X DOGM162_Y COUNTS_32768 true ready_DIN 3 1 s_off
  = mkOut [] s_off (Done tt).
Proof.
  destruct (off_is_silent DOGM162_X DOGM162_Y COUNTS_32768 true ready_DIN
              unit copy_format stack_zero s_off eq_refl) as (_ & _ & G & _).
  apply G.
Defined.

Lemma LCD_vPrintf_guard_witness :
  evs (LCD_vPrintf DOGM162_X DOGM162_Y COUNTS_32768 false ready_DIN
         unit copy_format stack_zero 1 (hello ++ [EOS]) tt s_on) = []
  <-> l_flgLCD_IsOn s_on = false \/ 5 > 30.
Proof.
  refine (proj1 (LCD_vPrintf_guard DOGM162_X DOGM162_Y COUNTS_32768 false ready_DIN
                   unit copy_format stack_zero 1 (hello ++ [EOS]) tt 5 s_on _)).
  reflexivity.
Defined.

Lemma enable_line_idles_low_witness :
  pin_E (st (run DOGM162_X DOGM162_Y COUNTS_32768 true ready_DIN
               unit copy_format stack_zero (OpPutc unit "A"%byte) s_on)) = false.
Proof.
  apply (enable_line_idles_low DOGM162_X DOGM162_Y COUNTS_32768 true ready_DIN
           unit copy_format stack_zero (OpPutc unit "A"%byte) s_on).
  left. reflexivity.
Defined.

Lemma LCD_PowerOn_sequence_witness :
  val (LCD_PowerOn COUNTS_32768 ready_DIN s_off) = Done tt /\
  wire s_off (evs (LCD_PowerOn COUNTS_32768 ready_DIN s_off)) = init_transfers.
Proof.
  refine (proj2 (proj2 (proj2 (LCD_PowerOn_sequence COUNTS_32768 ready_DIN s_off))) _ _).
  - reflexivity.
  - apply ready_DIN_responsive.
Defined.

(** The two scenarios of the spec on the display of 16 columns: "Hello" on
    line 1 is filled with 11 spaces, the long string on line 2 is cut to
    "This line is def". *)
Example write_line_hello :
  wire s_on (evs (LCD_WriteLine DOGM162_X DOGM162_Y COUNTS_32768 false ready_DIN
                    1 (hello ++ EOS :: hello_rest) s_on))
  = Cmd 0x80
    :: map (fun c => Data (char_code c)) (list_byte_of_string "Hello           ").
Proof. vm_compute. reflexivity. Qed.

Example write_line_too_long :
  wire s_on (evs (LCD_WriteLine DOGM162_X DOGM162_Y COUNTS_32768 false ready_DIN
                    2 (long_line ++ [EOS]) s_on))
  = Cmd 0xC0
    :: map (fun c => Data (char_code c)) (list_byte_of_string "This line is def").
Proof. vm_compute. reflexivity. Qed.

(** ** The further properties at the concrete display *)

Lemma late_DIN_responsive (n0 : nat) : responsive_from COUNTS_32768 late_DIN n0.
Proof.
  intros n _. exists 3%nat. split; [vm_compute; lia |].
  unfold late_DIN. replace (n + 3 <? 3)%nat with false; [reflexivity |].
  symmetry. apply Nat.ltb_ge. lia.
Qed.

Lemma WaitCtrlReady_first_ready_witness :
  val (WaitCtrlReady COUNTS_32768 late_DIN s_on) = Done false /\
  reads (st (WaitCtrlReady COUNTS_32768 late_DIN s_on)) = 4%nat.
Proof.
  destruct (WaitCtrlReady_first_ready COUNTS_32768 late_DIN 3 s_on) as (V & _ & R).
  - vm_compute; lia.
  - reflexivity.
  - intros j Hj. cbn [s_on reads Nat.add]. unfold late_DIN.
    replace (j <? 3)%nat with true by (symmetry; apply Nat.ltb_lt; exact Hj).
    reflexivity.
  - split; [exact V | exact R].
Defined.

Lemma LCD_PowerOn_subsequence_witness :
  subseq (wire s_off (evs (LCD_PowerOn COUNTS_32768 late_DIN s_off))) init_transfers.
Proof.
  apply (LCD_PowerOn_subsequence COUNTS_32768 late_DIN s_off). reflexivity.
Defined.

Lemma power_cycle_witness :
  wire (st (LCD_PowerOff s_on))
       (evs (LCD_PowerOn COUNTS_32768 late_DIN (st (LCD_PowerOff s_on))))
  = init_transfers.
Proof.
  apply (power_cycle COUNTS_32768 late_DIN s_on). apply late_DIN_responsive.
Defined.

Lemma output_keeps_power_witness :
  l_flgLCD_IsOn (st (run DOGM162_X DOGM162_Y COUNTS_32768 true ready_DIN
                       unit copy_format stack_zero (OpGotoXY unit 3 1) s_on)) = true.
Proof.
  refine (proj1 (output_keeps_power DOGM162_X DOGM162_Y COUNTS_32768 true ready_DIN
                   unit copy_format stack_zero (OpGotoXY unit 3 1) s_on _ _ _));
    discriminate.
Defined.

Lemma LCD_GotoXY_debug_halts_witness :
  LCD_GotoXY DOGM162_X DOGM162_Y COUNTS_32768 true ready_DIN 3 2 s_on
  = mkOut [] s_on Halted.
Proof.
  apply (LCD_GotoXY_debug_halts DOGM162_X DOGM162_Y COUNTS_32768 true ready_DIN 3 2 s_on).
  - reflexivity.
  - reflexivity.
  - lia.
  - lia.
  - right. unfold DOGM162_Y. lia.
Defined.

Lemma LCD_GotoXY_release_wraps_witness :
  wire s_on (evs (LCD_GotoXY DOGM162_X DOGM162_Y COUNTS_32768 false ready_DIN 0 4 s_on))
  = [Cmd 0x80].
Proof.
  refine (proj2 (LCD_GotoXY_release_wraps DOGM162_X DOGM162_Y COUNTS_32768 false ready_DIN
                   0 4 s_on _ _ _ _ _)).
  - reflexivity.
  - reflexivity.
  - lia.
  - lia.
  - apply ready_DIN_responsive.
Defined.

Lemma LCD_Puts_on_witness :
  wire s_on (evs (LCD_Puts COUNTS_32768 ready_DIN (hello ++ EOS :: hello) s_on))
  = map Data [72; 101; 108; 108; 111].
Proof.
  refine (proj2 (LCD_Puts_on COUNTS_32768 ready_DIN hello hello s_on _ _ _)).
  - apply hello_no_EOS.
  - reflexivity.
  - apply ready_DIN_responsive.
Defined.

Lemma write_leaves_bus_driven_witness :
  DOUT (st (DataWrite COUNTS_32768 late_DIN 0x41 s_on)) = 0x4100 /\
  pin_RS (st (DataWrite COUNTS_32768 late_DIN 0x41 s_on)) = true.
Proof.
  destruct (write_leaves_bus_driven COUNTS_32768 late_DIN 0x41 s_on
              (late_DIN_responsive _)) as (_ & _ & D & _ & R & _).
  split; [exact D | exact R].
Defined.

Lemma timeout_leaves_bus_reading_witness :
  MODEH (st (CmdWrite COUNTS_32768 busy_DIN 0x01 s_on)) = LCD_DATA_MODE_IN /\
  pin_RW (st (CmdWrite COUNTS_32768 busy_DIN 0x01 s_on)) = true.
Proof.
  destruct (timeout_leaves_bus_reading COUNTS_32768 busy_DIN 0x01 s_on)
    as ((Hm & _ & Hrw & _) & _).
  - vm_compute; lia.
  - apply busy_DIN_stuck.
  - split; [exact Hm | exact Hrw].
Defined.

Lemma LCD_WriteLine_bad_line_witness :
  LCD_WriteLine DOGM162_X DOGM162_Y COUNTS_32768 false ready_DIN 3 hello s_on
  = mkOut [] s_on (Done hello).
Proof.
  apply (LCD_WriteLine_bad_line DOGM162_X DOGM162_Y COUNTS_32768 false ready_DIN
           3 hello s_on).
  right. lia.
Defined.

Lemma LCD_WriteLine_off_witness :
  LCD_WriteLine DOGM162_X DOGM162_Y COUNTS_32768 true ready_DIN
    1 (hello ++ EOS :: hello_rest) s_off
  = mkOut [] s_off
      (Done (list_byte_of_string "Hello           " ++ EOS :: repeat x00 3)).
Proof.
  apply (LCD_WriteLine_off DOGM162_X DOGM162_Y COUNTS_32768 true ready_DIN
           1 hello hello_rest s_off).
  - left; reflexivity.
  - unfold DOGM162_X; lia.
  - apply hello_no_EOS.
  - vm_compute; reflexivity.
  - reflexivity.
Defined.

Lemma LCD_WriteLine_again_witness :
  exists buffer',
    val (LCD_WriteLine DOGM162_X DOGM162_Y COUNTS_32768 true ready_DIN
           1 (hello ++ EOS :: hello_rest) s_on) = Done buffer' /\
    val (LCD_WriteLine DOGM162_X DOGM162_Y COUNTS_32768 true ready_DIN
           2 buffer' s_off) = Done buffer'.
Proof.
  apply (LCD_WriteLine_again DOGM162_X DOGM162_Y COUNTS_32768 true ready_DIN
           1 2 hello hello_rest s_on s_off).
  - left; reflexivity.
  - right; reflexivity.
  - unfold DOGM162_X; lia.
  - unfold DOGM162_Y; lia.
  - apply hello_no_EOS.
  - vm_compute; reflexivity.
Defined.

Lemma LCD_WriteLine_after_PowerOn_witness :
  wire (st (LCD_PowerOn COUNTS_32768 ready_DIN s_off))
       (evs (LCD_WriteLine DOGM162_X DOGM162_Y COUNTS_32768 true ready_DIN
               2 (hello ++ EOS :: hello_rest) (st (LCD_PowerOn COUNTS_32768 ready_DIN s_off))))
  = Cmd 0xC0
    :: map (fun c => Data (char_code c)) (list_byte_of_string "Hello           ").
Proof.
  apply (LCD_WriteLine_after_PowerOn DOGM162_X DOGM162_Y COUNTS_32768 true ready_DIN
           2 hello hello_rest s_off).
  - right; reflexivity.
  - unfold DOGM162_X; lia.
  - unfold DOGM162_Y; lia.
  - apply hello_no_EOS.
  - vm_compute; reflexivity.
  - apply ready_DIN_responsive.
Defined.

Lemma LCD_vPrintf_line_witness :
  wire s_on (evs (LCD_vPrintf DOGM162_X DOGM162_Y COUNTS_32768 true ready_DIN
                    unit copy_format stack_zero 1 (hello ++ [EOS]) tt s_on))
  = Cmd 0x80
    :: map (fun c => Data (char_code c)) (list_byte_of_string "Hello           ").
Proof.
  refine (proj2 (LCD_vPrintf_line DOGM162_X DOGM162_Y COUNTS_32768 true ready_DIN
                   unit copy_format stack_zero 1 (hello ++ [EOS]) tt 5 s_on
                   _ _ _ _ _ _ _ _ _)).
  - left; reflexivity.
  - unfold DOGM162_X; lia.
  - unfold DOGM162_Y; lia.
  - reflexivity.
  - lia.
  - apply hello_no_EOS.
  - vm_compute; lia.
  - reflexivity.
  - apply ready_DIN_responsive.
Defined.


Lemma LCD_PowerOn_dead_controller_witness :
  wire s_off (evs (LCD_PowerOn COUNTS_32768 busy_DIN s_off)) = [] /\
  l_flgLCD_IsOn (st (LCD_PowerOn COUNTS_32768 busy_DIN s_off)) = true.
Proof.
  destruct (LCD_PowerOn_dead_controller COUNTS_32768 busy_DIN s_off) as (_ & W & F).
  - reflexivity.
  - intros n. reflexivity.
  - split; [exact W | exact F].
Defined.
